(** * Telemetry metrics of ddtrace: count, gauge, rate and distribution

    A shallow embedding of [ddtrace/internal/telemetry/metrics.py].  The
    four metric classes share the state declared by [Metric.__slots__]; each
    overrides [add_point] with its own reduction policy, and
    [DistributionMetric] also overrides [to_dict].

    Python floats are IEEE binary64 values, as are Rocq's primitive floats,
    so every arithmetic step of the source is modelled by the corresponding
    primitive operation.  A method is a computation over the object it is
    called on; it either returns or raises, and the object keeps whatever
    was assigned before the exception. *)

From Stdlib Require Import ZArith Floats Ascii.
From stdpp Require Import gmap strings list.

Local Open Scope Z_scope.

(** ** The Python runtime the module relies on *)

Module Py.

(** The built-in exceptions the modelled code can raise. *)
Inductive exn : Set :=
| TypeError
| ValueError
| OverflowError.

(** [bool(x)] for a float: [x != 0.0].  NaN is truthy, both zeros are not. *)
Definition truthy (x : float) : bool := negb (x =? 0)%float.

(** [int(x)] for a float: truncation toward zero; [ValueError] on NaN and
    [OverflowError] on an infinity. *)
Definition int (x : float) : exn + Z :=
  match Prim2SF x with
  | S754_nan => inl ValueError
  | S754_infinity _ => inl OverflowError
  | S754_zero _ => inr 0
  | S754_finite s m e =>
      let a := if 0 <=? e then Z.shiftl (Z.pos m) e else Z.shiftr (Z.pos m) (- e) in
      inr (if s then - a else a)
  end.

(** A float that is neither NaN nor an infinity. *)
Definition is_finite (x : float) : bool :=
  match Prim2SF x with
  | S754_nan | S754_infinity _ => false
  | S754_zero _ | S754_finite _ _ _ => true
  end.

(** The tuple [(name, namespace, tags, metric_type)] that [get_id] hashes.
    [tags] is [None] or a tuple of pairs of strings. *)
Definition tags : Type := option (list (string * string)).
Definition key : Type := string * string * tags * string.

(** The two built-ins whose results the module stores or returns without
    looking inside: [str.lower] and [hash].  [hash] returns a [Py_hash_t],
    a signed 64-bit integer; within one process it is a function of the
    value hashed. *)
Class Runtime : Type := {
  lower : string → string;
  hash : key → Z;
  hash_range : ∀ k, - 2 ^ 63 <= hash k < 2 ^ 63
}.

End Py.

(** ** Objects *)

(** The classes of the module.  [metric_type] is the class attribute of that
    name; [abstractmethods] is what [abc.ABCMeta] records for the class:
    [Metric.add_point] is decorated with [abc.abstractmethod], and each of
    the four subclasses overrides it. *)
Inductive class : Set :=
| MetricClass
| CountMetricClass
| GaugeMetricClass
| RateMetricClass
| DistributionMetricClass.

#[global] Instance class_eq_dec : EqDecision class.
Proof. solve_decision. Defined.

Definition metric_type (c : class) : string :=
  match c with
  | MetricClass => ""
  | CountMetricClass => "count"
  | GaugeMetricClass => "gauge"
  | RateMetricClass => "rate"
  | DistributionMetricClass => "distributions"
  end.

Definition abstractmethods (c : class) : list string :=
  match c with
  | MetricClass => ["add_point"]
  | _ => []
  end.

(** The shapes an element of [_points] takes: [[ts, value]] (a list, written
    by [CountMetric]), [(ts, value)] (a tuple, written by [GaugeMetric] and
    [RateMetric]) and a bare value (appended by [DistributionMetric]). *)
Inductive point : Set :=
| PointList (ts value : float)
| PointTuple (ts value : float)
| PointValue (value : float).

(** The slots of a metric, with the class of the instance. *)
Record object : Type := Object {
  cls : class;
  namespace : string;
  name : string;
  _tags : Py.tags;
  is_common_to_all_tracers : bool;
  interval : option float;
  _points : list point;
  _count : float
}.

Definition set_points (ps : list point) (o : object) : object :=
  Object (cls o) (namespace o) (name o) (_tags o) (is_common_to_all_tracers o)
         (interval o) ps (_count o).

Definition set_count (c : float) (o : object) : object :=
  Object (cls o) (namespace o) (name o) (_tags o) (is_common_to_all_tracers o)
         (interval o) (_points o) c.

(** ** Methods as computations on [self] *)

(** A method body run on [self]: the outcome (an exception or the returned
    value) and [self] afterwards. *)
Definition method (A : Type) : Type := object → (Py.exn + A) * object.

#[global] Instance method_ret : MRet method :=
  λ A x self, (inr x, self).

#[global] Instance method_bind : MBind method :=
  λ A B f m self,
    match m self with
    | (inr x, self') => f x self'
    | (inl e, self') => (inl e, self')
    end.

(** [self.f] *)
Definition attr {A : Type} (f : object → A) : method A :=
  λ self, (inr (f self), self).

(** [self._points = ps] and [self._count = c] *)
Definition assign_points (ps : list point) : method () :=
  λ self, (inr (), set_points ps self).

Definition assign_count (c : float) : method () :=
  λ self, (inr (), set_count c self).

Definition raise {A : Type} (e : Py.exn) : method A :=
  λ self, (inl e, self).

(** The outcome of a call that touches no object. *)
Definition lift {A : Type} (r : Py.exn + A) : method A :=
  λ self, (r, self).

(** The values of a payload returned by [to_dict]. *)
Inductive field : Type :=
| FStr (s : string)
| FBool (b : bool)
| FInt (n : Z)
| FPoints (ps : list point)
| FStrs (l : list string).

Abbreviation payload := (gmap string field).

(** ** class Metric *)

Module Metric.
Section Methods.
Context {rt : Py.Runtime}.

(** [Metric.__init__(self, namespace, name, tags, common, interval=None)],
    run on a new instance of class [c]. *)
Definition __init__ (c : class) (namespace name : string) (tags : Py.tags)
    (common : bool) (interval : option float) : object :=
  {| cls := c;
     name := Py.lower name;
     is_common_to_all_tracers := common;
     interval := interval;
     namespace := namespace;
     _tags := tags;
     _count := 0%float;
     _points := [] |}.

(** The call [c(namespace, name, tags, common, interval)].  [abc.ABCMeta]
    refuses to instantiate a class that still has an abstract method. *)
Definition new (c : class) (namespace name : string) (tags : Py.tags)
    (common : bool) (interval : option float) : Py.exn + object :=
  match abstractmethods c with
  | [] => inr (__init__ c namespace name tags common interval)
  | _ :: _ => inl Py.TypeError
  end.

(** [Metric.get_id(name, namespace, tags, metric_type)] *)
Definition get_id (name namespace : string) (tags : Py.tags) (metric_type : string) : Z :=
  Py.hash (name, namespace, tags, metric_type).

(** [Metric.__hash__(self)] *)
Definition __hash__ : method Z :=
  name ← attr name;
  namespace ← attr namespace;
  tags ← attr _tags;
  metric_type ← attr (metric_type ∘ cls);
  mret (get_id name namespace tags metric_type).

(** [Metric.add_point(self, value)]: the body under [abc.abstractmethod]
    is [pass]. *)
Definition add_point (value : float) : method () :=
  mret ().

(** [["{}:{}".format(k, v).lower() for k, v in self._tags] if self._tags else []] *)
Definition tag_strings (tags : Py.tags) : list string :=
  match tags with
  | Some ((_ :: _) as pairs) => (λ '(k, v), Py.lower (k +:+ ":" +:+ v)) <$> pairs
  | Some [] | None => []
  end.

(** [Metric.to_dict(self)] *)
Definition to_dict : method payload :=
  name ← attr name;
  metric_type ← attr (metric_type ∘ cls);
  common ← attr is_common_to_all_tracers;
  points ← attr _points;
  tags ← attr _tags;
  let data : payload :=
    list_to_map [("metric", FStr name);
                 ("type", FStr metric_type);
                 ("common", FBool common);
                 ("points", FPoints points);
                 ("tags", FStrs (tag_strings tags))] in
  interval ← attr interval;
  match interval with
  | Some i => n ← lift (Py.int i); mret (<["interval" := FInt n]> data)
  | None => mret data
  end.

End Methods.
End Metric.

(** ** class CountMetric *)

Module CountMetric.

(** [CountMetric.add_point(self, value)], with [now] the value [time.time()]
    has during the call.  [self._points[0][1] += value] needs
    [self._points[0]] to be a list: a tuple has no item assignment and a
    float no subscript. *)
Definition add_point (now value : float) : method () :=
  points ← attr _points;
  match points with
  | [] => assign_points [PointList now value]
  | PointList ts total :: rest => assign_points (PointList ts (total + value) :: rest)
  | PointTuple _ _ :: _ => raise Py.TypeError
  | PointValue _ :: _ => raise Py.TypeError
  end.

End CountMetric.

(** ** class GaugeMetric *)

Module GaugeMetric.

(** [GaugeMetric.add_point(self, value)] *)
Definition add_point (now value : float) : method () :=
  assign_points [PointTuple now value].

End GaugeMetric.

(** ** class RateMetric *)

Module RateMetric.

(** [RateMetric.add_point(self, value)] *)
Definition add_point (now value : float) : method () :=
  count ← attr _count;
  assign_count (count + value);;
  count ← attr _count;
  interval ← attr interval;
  let rate :=
    match interval with
    | Some i => if Py.truthy i then (count / i)%float else 0%float
    | None => 0%float
    end in
  assign_points [PointTuple now rate].

End RateMetric.

(** ** class DistributionMetric *)

Module DistributionMetric.
Section Methods.
Context {rt : Py.Runtime}.

(** [DistributionMetric.add_point(self, value)] *)
Definition add_point (value : float) : method () :=
  points ← attr _points;
  assign_points (points ++ [PointValue value]).

(** [DistributionMetric.to_dict(self)] *)
Definition to_dict : method payload :=
  name ← attr name;
  points ← attr _points;
  tags ← attr _tags;
  let data : payload :=
    list_to_map [("metric", FStr name);
                 ("points", FPoints points);
                 ("tags", FStrs (Metric.tag_strings tags))] in
  mret data.

End Methods.
End DistributionMetric.

(** ** Method resolution *)

Section Dispatch.
Context {rt : Py.Runtime}.

(** [self.add_point(value)] at a moment when [time.time()] is [now]. *)
Definition add_point (now value : float) : method () :=
  λ self,
    match cls self with
    | MetricClass => Metric.add_point value self
    | CountMetricClass => CountMetric.add_point now value self
    | GaugeMetricClass => GaugeMetric.add_point now value self
    | RateMetricClass => RateMetric.add_point now value self
    | DistributionMetricClass => DistributionMetric.add_point value self
    end.

(** [self.to_dict()] *)
Definition to_dict : method payload :=
  λ self,
    match cls self with
    | DistributionMetricClass => DistributionMetric.to_dict self
    | _ => Metric.to_dict self
    end.

(** [hash(self)] *)
Definition __hash__ : method Z := Metric.__hash__.

(** A run of calls [self.add_point(v)], each a pair [(now, v)], stopped by
    the first exception. *)
Fixpoint add_points (calls : list (float * float)) : method () :=
  match calls with
  | [] => mret ()
  | (now, value) :: calls => add_point now value;; add_points calls
  end.

End Dispatch.

(** ** The vocabulary of the properties *)

(** [v0 + v1 + ... + vn], added left to right as the code adds them. *)
Definition total (v0 : float) (vs : list float) : float :=
  fold_left PrimFloat.add vs v0.

(** The slots that only [__init__] assigns. *)
Definition same_coordinates (self self' : object) : Prop :=
  cls self' = cls self
  ∧ namespace self' = namespace self
  ∧ name self' = name self
  ∧ _tags self' = _tags self
  ∧ is_common_to_all_tracers self' = is_common_to_all_tracers self
  ∧ interval self' = interval self.

(** An object the module's own operations produce: constructed through its
    class, then passed to [add_point] and [to_dict] any number of times. *)
Inductive reachable {rt : Py.Runtime} : object → Prop :=
| reachable_new c namespace name tags common interval self :
    Metric.new c namespace name tags common interval = inr self → reachable self
| reachable_add_point now value self :
    reachable self → reachable (add_point now value self).2
| reachable_to_dict self :
    reachable self → reachable (to_dict self).2.

(** What [CountMetric.add_point] relies on: a stored entry is a list. *)
Definition points_shape (self : object) : Prop :=
  match cls self with
  | MetricClass => False
  | CountMetricClass => _points self = [] ∨ ∃ ts sum, _points self = [PointList ts sum]
  | _ => True
  end.

(** ** A runtime for ASCII strings

    [str.lower] restricted to ASCII letters and a polynomial hash folded
    into the range of [Py_hash_t]: an instance of [Py.Runtime] on which the
    model runs on concrete inputs. *)

Module AsciiRuntime.

Definition lower_char (a : ascii) : ascii :=
  let n := N_of_ascii a in
  if ((65 <=? n) && (n <=? 90))%N then ascii_of_N (n + 32) else a.

Fixpoint lower (s : string) : string :=
  match s with
  | EmptyString => EmptyString
  | String a s => String (lower_char a) (lower s)
  end.

Fixpoint hash_str (s : string) (h : Z) : Z :=
  match s with
  | EmptyString => h
  | String a s => hash_str s ((h * 31 + Z.of_N (N_of_ascii a)) `mod` 2 ^ 64)
  end.

Definition hash_tags (t : Py.tags) (h : Z) : Z :=
  match t with
  | None => h
  | Some pairs => fold_left (λ h '(k, v), hash_str v (hash_str k (h + 1))) pairs (h + 2)
  end.

Definition hash (k : Py.key) : Z :=
  let '(name, namespace, tags, metric_type) := k in
  hash_str metric_type (hash_tags tags (hash_str namespace (hash_str name 17)))
    `mod` 2 ^ 64 - 2 ^ 63.

Definition runtime : Py.Runtime.
Proof.
  refine {| Py.lower := lower; Py.hash := hash |}.
  intros [[[n ns] t] mt]. unfold hash.
  pose proof (Z.mod_pos_bound
    (hash_str mt (hash_tags t (hash_str ns (hash_str n 17)))) (2 ^ 64)).
  lia.
Defined.

End AsciiRuntime.

(** ** The model on concrete metrics *)

Module Examples.

(** [CountMetric("tracer", "Requests", (("env", "prod"),), True)] *)
Definition requests : object :=
  Metric.__init__ (rt := AsciiRuntime.runtime)
    CountMetricClass "tracer" "Requests" (Some [("env", "prod")]) true None.

(** [GaugeMetric("tracer", "Cpu", None, False, 10.5)] *)
Definition cpu : object :=
  Metric.__init__ (rt := AsciiRuntime.runtime)
    GaugeMetricClass "tracer" "Cpu" None false (Some 10.5%float).

(** [RateMetric("appsec", "Hits", None, True, 10.0)] *)
Definition hits : object :=
  Metric.__init__ (rt := AsciiRuntime.runtime)
    RateMetricClass "appsec" "Hits" None true (Some 10%float).

(** [DistributionMetric("tracer", "Latency", (("Env", "Prod"),), True)] *)
Definition latency : object :=
  Metric.__init__ (rt := AsciiRuntime.runtime)
    DistributionMetricClass "tracer" "Latency" (Some [("Env", "Prod")]) true None.

(** [GaugeMetric("tracer", "Cpu", None, False, float("inf"))] *)
Definition cpu_inf : object :=
  Metric.__init__ (rt := AsciiRuntime.runtime)
    GaugeMetricClass "tracer" "Cpu" None false (Some infinity).

(** [CountMetric("tracer", "Requests", None, True, float("nan"))] *)
Definition requests_nan : object :=
  Metric.__init__ (rt := AsciiRuntime.runtime)
    CountMetricClass "tracer" "Requests" None true (Some nan).

End Examples.

Module MoreExamples.

(** [RateMetric("appsec", "Hits", None, True, 0.0)] *)
Definition hits_zero_interval : object :=
  Metric.__init__ (rt := AsciiRuntime.runtime)
    RateMetricClass "appsec" "Hits" None true (Some 0%float).

End MoreExamples.

(** ** ddtrace/settings/http.py: [HttpConfig] *)

Module HttpConfig.

(** Modelled from the spec: [normalize_header_name] is imported from
    [ddtrace/internal/utils/http.py], which is not among the sources; the
    spec has it normalize header names so that they compare without regard
    to case.  It is a parameter here. *)
Class Utils : Type := {
  normalize_header_name : string → string
}.

(** The attributes of an [HttpConfig], with the cache that
    [@cachedmethod()] keeps for [_header_tag_name] on the instance. *)
Record object : Type := Object {
  _header_tags : gmap string string;
  trace_query_string : option bool;
  _cache : gmap string (option string)
}.

Definition set_header_tags (tags : gmap string string) (self : object) : object :=
  Object tags (trace_query_string self) (_cache self).

Definition set_cache (cache : gmap string (option string)) (self : object) : object :=
  Object (_header_tags self) (trace_query_string self) cache.

(** [whitelist] in [trace_headers]: a string or a list of strings. *)
Inductive whitelist : Set :=
| WStr (s : string)
| WList (l : list string).

(** [bool(whitelist)] *)
Definition truthy (w : whitelist) : bool :=
  match w with
  | WStr "" | WList [] => false
  | WStr _ | WList _ => true
  end.

(** [[whitelist] if isinstance(whitelist, str) else whitelist] *)
Definition entries (w : whitelist) : list string :=
  match w with
  | WStr s => [s]
  | WList l => l
  end.

(** [d.setdefault(k, v)] *)
Definition setdefault (k v : string) (d : gmap string string) : gmap string string :=
  match d !! k with
  | Some _ => d
  | None => <[k:=v]> d
  end.

Section Methods.
Context {utils : Utils}.

(** [HttpConfig.__init__(self, header_tags=None)]; a mapping is given by its
    items in iteration order, and the comprehension lets a later item
    replace an earlier one with the same normalized key. *)
Definition __init__ (header_tags : option (list (string * string))) : object :=
  {| _header_tags :=
       match header_tags with
       | Some ((_ :: _) as items) =>
           fold_left (λ d '(k, v), <[normalize_header_name k := v]> d) items ∅
       | Some [] | None => ∅
       end;
     trace_query_string := None;
     _cache := ∅ |}.

(** Modelled from the spec: [cachedmethod] is imported from
    [ddtrace/internal/utils/cache.py], which is not among the sources.  A
    cached method keeps, per instance, the results it has returned by
    argument and returns a kept result without running the body;
    [invalidate()] forgets them all. *)
Definition invalidate (self : object) : object := set_cache ∅ self.

Definition cached (body : string → object → option string) (key : string)
    (self : object) : option string * object :=
  match _cache self !! key with
  | Some result => (result, self)
  | None =>
      let result := body key self in
      (result, set_cache (<[key := result]> (_cache self)) self)
  end.

(** [HttpConfig._reset(self)] *)
Definition _reset (self : object) : object :=
  invalidate (set_header_tags ∅ self).

(** The body of [HttpConfig._header_tag_name(self, header_name)]; its
    [log.debug] call writes to the logger and assigns nothing, and is left
    out. *)
Definition _header_tag_name_body (header_name : string) (self : object) : option string :=
  if decide (_header_tags self = ∅) then None
  else _header_tags self !! normalize_header_name header_name.

(** [HttpConfig._header_tag_name], as decorated *)
Definition _header_tag_name : string → object → option string * object :=
  cached _header_tag_name_body.

(** [HttpConfig.is_header_tracing_configured] *)
Definition is_header_tracing_configured (self : object) : bool :=
  bool_decide (0 < size (_header_tags self))%nat.

(** [HttpConfig.trace_headers(self, whitelist)]; the result is [None] or
    [self], here [false] or [true] beside the object. *)
Definition trace_headers (w : whitelist) (self : object) : bool * object :=
  if negb (truthy w) then (false, self)
  else
    let tags :=
      fold_left
        (λ d whitelist_entry,
           let normalized_header_name := normalize_header_name whitelist_entry in
           if decide (normalized_header_name = "") then d
           else setdefault normalized_header_name "" d)
        (entries w) (_header_tags self) in
    (true, invalidate (set_header_tags tags self)).

(** [HttpConfig.header_is_traced(self, header_name)] *)
Definition header_is_traced (header_name : string) (self : object) : bool * object :=
  let '(tag, self) := _header_tag_name header_name self in
  (bool_decide (tag ≠ None), self).

End Methods.

(** An [HttpConfig] a program can hold: constructed, then used through its
    methods; the cache may drop entries at any time. *)
Inductive reachable {utils : Utils} : object → Prop :=
| reachable_init header_tags : reachable (__init__ header_tags)
| reachable_reset self : reachable self → reachable (_reset self)
| reachable_trace_headers w self : reachable self → reachable (trace_headers w self).2
| reachable_header_tag_name h self : reachable self → reachable (_header_tag_name h self).2
| reachable_header_is_traced h self : reachable self → reachable (header_is_traced h self).2
| reachable_evict cache self :
    reachable self → cache ⊆ _cache self → reachable (set_cache cache self).

(** Every kept result is what the body returns now. *)
Definition coherent {utils : Utils} (self : object) : Prop :=
  ∀ h r, _cache self !! h = Some r → r = _header_tag_name_body h self.

(** Header names normalized by [str.lower] on ASCII letters, and an
    [HttpConfig] built from a mapping and then extended. *)
Definition ascii_utils : Utils := {| normalize_header_name := AsciiRuntime.lower |}.

Definition example : object :=
  (trace_headers (utils := ascii_utils) (WList ["Host"; "User-Agent"])
     (__init__ (utils := ascii_utils) (Some [("Content-Type", "http.content_type")]))).2.

End HttpConfig.

(** ** ddtrace/internal/uwsgi.py: [check_uwsgi] *)

Module Uwsgi.

(** What [check_uwsgi] finds around it and does not define: the state the
    callbacks work on, the exceptions they may raise, with
    [isinstance(e, Exception)], and the values of [uwsgi.opt] with their
    truth value. *)
Class Process : Type := {
  world : Type;
  exn : Type;
  is_Exception : exn → bool;
  value : Type;
  truthy : value → bool
}.

(** A callback: run on a world, it returns or raises, and leaves a world. *)
Definition callable {p : Process} : Type := world → (exn + ()) * world.

(** The attributes of the module [uwsgi] that [check_uwsgi] reads and
    writes; [atexit] is [None] when the attribute is missing or [None]. *)
Record uwsgi {p : Process} : Type := Uwsgi {
  opt : gmap string value;
  numproc : Z;
  worker_id : Z;
  atexit : option callable
}.

(** The process: [uwsgi] when [import uwsgi] succeeds, whether
    [import uwsgidecorators] succeeds, and the functions handed to
    [uwsgidecorators.postfork] so far. *)
Record env {p : Process} : Type := Env {
  uwsgi_module : option uwsgi;
  uwsgidecorators : bool;
  postfork : list callable
}.

(** How a call of [check_uwsgi] ends. *)
Inductive outcome : Set :=
| Returns
| uWSGIConfigError (message : string)
| uWSGIMasterProcess.

Section CheckUwsgi.
Context {p : Process}.

(** [uwsgi.opt.get(name)] as a condition *)
Definition opt_get (u : uwsgi) (name : string) : bool :=
  match opt u !! name with
  | Some v => truthy v
  | None => false
  end.

(** The closure [_atexit] that [check_uwsgi] defines around [atexit] and
    [original_atexit]. *)
Definition _atexit (atexit : callable) (original_atexit : option callable) : callable :=
  λ w,
    let original w :=
      match original_atexit with
      | Some f => f w
      | None => (inr (), w)
      end in
    match atexit w with
    | (inr (), w) => original w
    | (inl e, w) => if is_Exception e then original w else (inl e, w)
    end.

(** [check_uwsgi(worker_callback=None, atexit=None)] *)
Definition check_uwsgi (worker_callback atexit_ : option callable) (e : env)
    : outcome * env :=
  match uwsgi_module e with
  | None => (Returns, e)
  | Some u =>
      if negb (opt_get u "enable-threads") then
        (uWSGIConfigError "enable-threads option must be set to true", e)
      else if (1 <? numproc u) && negb (opt_get u "lazy-apps") && (worker_id u =? 0) then
        if negb (opt_get u "master") then
          (uWSGIConfigError
             "master option must be enabled when multiple processes are used", e)
        else
          match worker_callback, uwsgidecorators e with
          | Some _, false =>
              (uWSGIConfigError
                 "Running under uwsgi but uwsgidecorators cannot be imported", e)
          | _, _ =>
              let hooks :=
                match worker_callback with
                | Some f => postfork e ++ [f]
                | None => postfork e
                end in
              let u :=
                match atexit_ with
                | Some f =>
                    {| opt := opt u; numproc := numproc u; worker_id := worker_id u;
                       atexit := Some (_atexit f (atexit u)) |}
                | None => u
                end in
              (uWSGIMasterProcess,
               {| uwsgi_module := Some u; uwsgidecorators := uwsgidecorators e;
                  postfork := hooks |})
          end
      else (Returns, e)
  end.

End CheckUwsgi.

(** Callbacks that log their name in a list of strings; the only exception
    is an [Exception].  Options are [True] or [False]. *)
Definition logging : Process :=
  {| world := list string; exn := string; is_Exception := λ _, true;
     value := bool; truthy := id |}.

Definition log (name : string) : callable (p := logging) :=
  λ w, (inr (), w ++ [name]).

Definition fail (name : string) : callable (p := logging) :=
  λ w, (inl name, w ++ [name]).

(** The master of a prefork uwsgi: two processes, threads and master
    enabled, an [atexit] hook already there. *)
Definition master : env (p := logging) :=
  {| uwsgi_module :=
       Some {| opt := {["enable-threads" := true; "master" := true]};
               numproc := 2; worker_id := 0; atexit := Some (log "original") |};
     uwsgidecorators := true;
     postfork := [] |}.

(** A worker of the same uwsgi. *)
Definition worker : env (p := logging) :=
  {| uwsgi_module :=
       Some {| opt := {["enable-threads" := true; "master" := true]};
               numproc := 2; worker_id := 1; atexit := Some (log "original") |};
     uwsgidecorators := true;
     postfork := [] |}.

End Uwsgi.

(** ** Running methods *)

Section Runs.
Context {rt : Py.Runtime}.

Lemma set_points_id (o : object) : set_points (_points o) o = o.
Proof. by destruct o. Qed.

Lemma set_count_id (o : object) : set_count (_count o) o = o.
Proof. by destruct o. Qed.

Lemma add_points_cons (now value : float) (calls : list (float * float)) (self : object) :
  add_points ((now, value) :: calls) self =
    match add_point now value self with
    | (inr _, self') => add_points calls self'
    | (inl e, self') => (inl e, self')
    end.
Proof. reflexivity. Qed.

Lemma add_points_app (calls calls' : list (float * float)) (self : object) :
  add_points (calls ++ calls') self =
    match add_points calls self with
    | (inr _, self') => add_points calls' self'
    | (inl e, self') => (inl e, self')
    end.
Proof.
  revert self. induction calls as [|[now v] calls IH]; intros self; [done|].
  rewrite <- app_comm_cons, !add_points_cons.
  destruct (add_point now v self) as [[e|[]] self']; [done|]. apply IH.
Qed.

End Runs.

(** ** Reduction policies *)

Section Policies.
Context {rt : Py.Runtime}.

(** *** CountMetric *)

Lemma count_add_point_first (now value : float) (self : object) :
  cls self = CountMetricClass → _points self = [] →
  add_point now value self = (inr (), set_points [PointList now value] self).
Proof.
  intros Hc Hp. unfold add_point. rewrite Hc.
  unfold CountMetric.add_point, mbind, method_bind, attr. by rewrite Hp.
Qed.

Lemma count_add_point_next (now value ts sum : float) (rest : list point) (self : object) :
  cls self = CountMetricClass → _points self = PointList ts sum :: rest →
  add_point now value self =
    (inr (), set_points (PointList ts (sum + value) :: rest) self).
Proof.
  intros Hc Hp. unfold add_point. rewrite Hc.
  unfold CountMetric.add_point, mbind, method_bind, attr. by rewrite Hp.
Qed.

Lemma count_add_points_next (calls : list (float * float)) (ts sum : float)
    (rest : list point) (self : object) :
  cls self = CountMetricClass → _points self = PointList ts sum :: rest →
  add_points calls self =
    (inr (), set_points (PointList ts (total sum calls.*2) :: rest) self).
Proof.
  revert sum self. induction calls as [|[now v] calls IH]; intros sum self Hc Hp.
  - cbn. by rewrite <- Hp, set_points_id.
  - rewrite add_points_cons, (count_add_point_next _ _ _ _ _ _ Hc Hp).
    by rewrite (IH (sum + v)%float (set_points (PointList ts (sum + v) :: rest) self)).
Qed.

(** C1. On a [CountMetric] with no point stored, the calls
    [add_point(v1)], ..., [add_point(vn)] (at least one) all return and leave
    [_points] with exactly one entry, [[t1, v1 + ... + vn]], where [t1] is
    the time of the first call; no other slot changes.  On a stored entry, a
    further call adds into its value and keeps its timestamp. *)
Theorem count_accumulates (self : object) (t1 v1 : float) (calls : list (float * float)) :
  cls self = CountMetricClass → _points self = [] →
  add_points ((t1, v1) :: calls) self =
    (inr (), set_points [PointList t1 (total v1 calls.*2)] self)
  ∧ (∀ now v,
      add_point now v (add_points ((t1, v1) :: calls) self).2 =
        (inr (), set_points [PointList t1 (total v1 calls.*2 + v)] self))
  ∧ _points (add_points ((t1, v1) :: calls) self).2
    = [PointList t1 (total v1 calls.*2)]
  ∧ length (_points (add_points ((t1, v1) :: calls) self).2) = 1%nat
  ∧ (∀ now v,
      _points (add_point now v (add_points ((t1, v1) :: calls) self).2).2
      = [PointList t1 (total v1 calls.*2 + v)])
  ∧ _points (add_point t1 v1 self).2 = [PointList t1 v1].
Proof.
  intros Hc Hp.
  assert (add_points ((t1, v1) :: calls) self =
    (inr (), set_points [PointList t1 (total v1 calls.*2)] self)) as Hrun.
  { rewrite add_points_cons, (count_add_point_first _ _ _ Hc Hp).
    by rewrite (count_add_points_next calls t1 v1 [] (set_points [PointList t1 v1] self)). }
  assert (∀ now v,
      add_point now v (add_points ((t1, v1) :: calls) self).2 =
        (inr (), set_points [PointList t1 (total v1 calls.*2 + v)] self)) as Hnext.
  { intros now v. rewrite Hrun. cbn [snd].
    by rewrite (count_add_point_next now v t1 (total v1 calls.*2) []
                  (set_points [PointList t1 (total v1 calls.*2)] self)). }
  split; [done|]. split; [done|].
  split; [by rewrite Hrun|]. split; [by rewrite Hrun|].
  split; [intros now v; by rewrite Hnext|].
  by rewrite (count_add_point_first _ _ _ Hc Hp).
Qed.

(** *** GaugeMetric *)

Lemma gauge_add_point (now value : float) (self : object) :
  cls self = GaugeMetricClass →
  add_point now value self = (inr (), set_points [PointTuple now value] self).
Proof. intros Hc. unfold add_point. by rewrite Hc. Qed.

Lemma gauge_add_points_returns (calls : list (float * float)) (self : object) :
  cls self = GaugeMetricClass →
  ∃ ps, add_points calls self = (inr (), set_points ps self).
Proof.
  revert self. induction calls as [|[now v] calls IH]; intros self Hc.
  - exists (_points self). cbn. by rewrite set_points_id.
  - rewrite add_points_cons, (gauge_add_point _ _ _ Hc).
    destruct (IH (set_points [PointTuple now v] self) Hc) as [ps ->]. by exists ps.
Qed.

(** C3. On a [GaugeMetric], whatever was stored before, the calls
    [add_point(v1)], ..., [add_point(vn)] (at least one) all return and leave
    [_points] with exactly one entry, [(tn, vn)]: the value and the time of
    the last call.  No other slot changes. *)
Theorem gauge_last_write_wins (self : object) (calls : list (float * float)) (tn vn : float) :
  cls self = GaugeMetricClass →
  add_points (calls ++ [(tn, vn)]) self = (inr (), set_points [PointTuple tn vn] self)
  ∧ _points (add_points (calls ++ [(tn, vn)]) self).2 = [PointTuple tn vn]
  ∧ length (_points (add_points (calls ++ [(tn, vn)]) self).2) = 1%nat.
Proof.
  intros Hc.
  assert (add_points (calls ++ [(tn, vn)]) self =
            (inr (), set_points [PointTuple tn vn] self)) as Hrun.
  { rewrite add_points_app. destruct (gauge_add_points_returns calls self Hc) as [ps ->].
    rewrite add_points_cons, gauge_add_point by done. done. }
  by rewrite Hrun.
Qed.

(** *** DistributionMetric *)

Lemma distribution_add_point (now value : float) (self : object) :
  cls self = DistributionMetricClass →
  add_point now value self = (inr (), set_points (_points self ++ [PointValue value]) self).
Proof. intros Hc. unfold add_point. by rewrite Hc. Qed.

Lemma distribution_add_points (calls : list (float * float)) (self : object) :
  cls self = DistributionMetricClass →
  add_points calls self =
    (inr (), set_points (_points self ++ (PointValue <$> calls.*2)) self).
Proof.
  revert self. induction calls as [|[now v] calls IH]; intros self Hc.
  - cbn. by rewrite app_nil_r, set_points_id.
  - rewrite add_points_cons, (distribution_add_point _ _ _ Hc).
    rewrite (IH (set_points (_points self ++ [PointValue v]) self)) by done.
    cbn. by rewrite <- app_assoc.
Qed.

(** C4. On a [DistributionMetric] with no point stored, [n] calls
    [add_point(v1)], ..., [add_point(vn)] all return and leave [_points]
    equal to [[v1; ...; vn]]: [n] entries in call order, each the bare value
    with no timestamp, none merged with another. *)
Theorem distribution_appends (self : object) (calls : list (float * float)) :
  cls self = DistributionMetricClass → _points self = [] →
  add_points calls self = (inr (), set_points (PointValue <$> calls.*2) self)
  ∧ length (_points (add_points calls self).2) = length calls
  ∧ ∀ i now v, calls !! i = Some (now, v) →
      _points (add_points calls self).2 !! i = Some (PointValue v).
Proof.
  intros Hc Hp. rewrite (distribution_add_points calls self Hc), Hp. cbn.
  split; [done|]. split.
  - by rewrite !length_fmap.
  - intros i now v Hi. by rewrite !list_lookup_fmap, Hi.
Qed.

End Policies.

(** ** Floats as conditions *)

(** A positive float is truthy: [0 < x] excludes NaN and both zeros. *)
Lemma truthy_pos (x : float) : (0 <? x)%float = true → Py.truthy x = true.
Proof.
  unfold Py.truthy. rewrite FloatAxioms.ltb_spec, FloatAxioms.eqb_spec. unfold SFltb, SFeqb.
  change (Prim2SF 0) with (S754_zero false).
  destruct (Prim2SF x) as [[]|[]| |[] m e]; cbn; congruence.
Qed.

(** A float equal to zero ([0.0] or [-0.0]) is not. *)
Lemma truthy_zero (x : float) : (x =? 0)%float = true → Py.truthy x = false.
Proof. unfold Py.truthy. by intros ->. Qed.

(** ** Serialization leaves the object alone *)

Section Frame.
Context {rt : Py.Runtime}.

Lemma Metric_to_dict_self (self : object) : (Metric.to_dict self).2 = self.
Proof.
  unfold Metric.to_dict, mbind, method_bind, attr, lift, mret, method_ret.
  destruct (interval self) as [i|]; [|done]. by destruct (Py.int i).
Qed.

Lemma Distribution_to_dict_self (self : object) : (DistributionMetric.to_dict self).2 = self.
Proof. reflexivity. Qed.

Lemma to_dict_self (self : object) : (to_dict self).2 = self.
Proof.
  unfold to_dict.
  destruct (cls self); auto using Metric_to_dict_self, Distribution_to_dict_self.
Qed.

End Frame.

Section RatePolicy.
Context {rt : Py.Runtime}.

(** *** RateMetric *)

Lemma rate_add_point (now value : float) (self : object) :
  cls self = RateMetricClass →
  add_point now value self =
    (inr (),
     set_points
       [PointTuple now
          match interval self with
          | Some i => if Py.truthy i then ((_count self + value) / i)%float else 0%float
          | None => 0%float
          end]
       (set_count (_count self + value) self)).
Proof. intros Hc. unfold add_point. by rewrite Hc. Qed.

Lemma rate_add_points_returns (calls : list (float * float)) (self : object) :
  cls self = RateMetricClass →
  ∃ ps, add_points calls self =
          (inr (), set_points ps (set_count (total (_count self) calls.*2) self)).
Proof.
  revert self. induction calls as [|[now v] calls IH]; intros self Hc.
  - exists (_points self). cbn. by rewrite set_count_id, set_points_id.
  - rewrite add_points_cons, (rate_add_point _ _ _ Hc).
    edestruct IH as [ps ->]; [|by exists ps]. done.
Qed.

(** C2. On a [RateMetric], the calls [add_point(v1)], ..., [add_point(vn)]
    (at least one) all return; each adds its value to [_count], so that
    afterwards [_count] is [T], the count before plus [v1 + ... + vn] ([0.0]
    before the first call on a new object), and [_points] holds the single
    entry [(tn, rate)] with [tn] the time of the last call.  [rate] is
    [T / I] when the interval is a float [I > 0], and [0.0] when the interval
    is [None] or zero, whatever [T] is.  [to_dict] does not reset [_count]. *)
Theorem rate_derivation (self : object) (calls : list (float * float)) (tn vn : float) :
  cls self = RateMetricClass →
  let T := total (_count self) (calls ++ [(tn, vn)]).*2 in
  (∃ rate,
     add_points (calls ++ [(tn, vn)]) self =
       (inr (), set_points [PointTuple tn rate] (set_count T self))
     ∧ (∀ I, interval self = Some I → (0 <? I)%float = true → rate = (T / I)%float)
     ∧ (interval self = None → rate = 0%float)
     ∧ (∀ I, interval self = Some I → (I =? 0)%float = true → rate = 0%float)
     ∧ _points (add_points (calls ++ [(tn, vn)]) self).2 = [PointTuple tn rate]
     ∧ length (_points (add_points (calls ++ [(tn, vn)]) self).2) = 1%nat
     ∧ _count (add_points (calls ++ [(tn, vn)]) self).2 = T)
  ∧ (∀ now v, _count (add_point now v self).2 = (_count self + v)%float)
  ∧ _count (to_dict (add_points (calls ++ [(tn, vn)]) self).2).2 = T.
Proof.
  intros Hc T.
  assert (T = (total (_count self) calls.*2 + vn)%float) as HT.
  { unfold T, total. by rewrite fmap_app, fold_left_app. }
  destruct (rate_add_points_returns calls self Hc) as [ps Hcalls].
  assert (∃ rate,
     add_points (calls ++ [(tn, vn)]) self =
       (inr (), set_points [PointTuple tn rate] (set_count T self))
     ∧ (∀ I, interval self = Some I → (0 <? I)%float = true → rate = (T / I)%float)
     ∧ (interval self = None → rate = 0%float)
     ∧ (∀ I, interval self = Some I → (I =? 0)%float = true → rate = 0%float))
    as (rate & Hrun & Hrate).
  { rewrite add_points_app, Hcalls, add_points_cons, rate_add_point by done.
    cbn [add_points mret method_ret _count interval set_points set_count].
    rewrite <- HT. eexists. split; [reflexivity|].
    destruct (interval self) as [i|]; repeat split; try done.
    - intros I [= ->] HI. by rewrite (truthy_pos I HI).
    - intros I [= ->] HI. by rewrite (truthy_zero I HI). }
  destruct Hrate as (Hpos & Hnone & Hzero).
  split; [exists rate; by rewrite Hrun|]. split.
  - intros now v. by rewrite rate_add_point.
  - by rewrite to_dict_self, Hrun.
Qed.

End RatePolicy.

(** ** What [add_point] leaves alone *)

Section Coordinates.
Context {rt : Py.Runtime}.

Lemma same_coordinates_refl (self : object) : same_coordinates self self.
Proof. by repeat split. Qed.

Lemma same_coordinates_trans (a b c : object) :
  same_coordinates a b → same_coordinates b c → same_coordinates a c.
Proof. unfold same_coordinates. intuition congruence. Qed.

Lemma add_point_coordinates (now value : float) (self : object) :
  same_coordinates self (add_point now value self).2.
Proof.
  unfold add_point. destruct self as [c ns n t cm i ps cnt]. destruct c; try by repeat split.
  cbn. destruct ps as [|[ts sum|ts sum|x] rest]; by repeat split.
Qed.

Lemma add_points_coordinates (calls : list (float * float)) (self : object) :
  same_coordinates self (add_points calls self).2.
Proof.
  revert self. induction calls as [|[now v] calls IH]; intros self.
  - apply same_coordinates_refl.
  - rewrite add_points_cons. pose proof (add_point_coordinates now v self) as Hstep.
    destruct (add_point now v self) as [[e|[]] self']; [done|].
    eapply same_coordinates_trans; [exact Hstep|apply IH].
Qed.

End Coordinates.

(** ** The two payload schemas *)

Lemma int_finite (x : float) : Py.is_finite x = true → ∃ n, Py.int x = inr n.
Proof. unfold Py.is_finite, Py.int. destruct (Prim2SF x); try done; by eexists. Qed.

Lemma int_not_finite (x : float) : Py.is_finite x = false → ∃ e, Py.int x = inl e.
Proof. unfold Py.is_finite, Py.int. destruct (Prim2SF x); try done; by eexists. Qed.

(** [int] drops the fractional part, toward zero. *)
Example int_truncates :
  Py.int 10 = inr 10 ∧ Py.int 2.5 = inr 2 ∧ Py.int (-2.5) = inr (-2)
  ∧ Py.int 0.5 = inr 0 ∧ Py.int (-0) = inr 0 ∧ Py.int 1e3 = inr 1000.
Proof. repeat split; reflexivity. Qed.

Section Schema.
Context {rt : Py.Runtime}.

Lemma Distribution_to_dict_payload (self : object) :
  ∃ d : payload,
    DistributionMetric.to_dict self = (inr d, self)
    ∧ dom d = {["metric"; "points"; "tags"]}
    ∧ d !! "metric" = Some (FStr (name self))
    ∧ d !! "points" = Some (FPoints (_points self))
    ∧ d !! "tags" = Some (FStrs (Metric.tag_strings (_tags self)))
    ∧ d !! "type" = None ∧ d !! "common" = None ∧ d !! "interval" = None.
Proof.
  eexists. split; [reflexivity|]. split; [|by repeat split].
  rewrite dom_list_to_map_L. cbn. set_solver.
Qed.

Lemma Metric_to_dict_no_interval (self : object) :
  interval self = None →
  ∃ d : payload,
    Metric.to_dict self = (inr d, self)
    ∧ dom d = {["metric"; "type"; "common"; "points"; "tags"]}
    ∧ d !! "metric" = Some (FStr (name self))
    ∧ d !! "type" = Some (FStr (metric_type (cls self)))
    ∧ d !! "common" = Some (FBool (is_common_to_all_tracers self))
    ∧ d !! "points" = Some (FPoints (_points self))
    ∧ d !! "tags" = Some (FStrs (Metric.tag_strings (_tags self)))
    ∧ d !! "interval" = None.
Proof.
  intros Hi. unfold Metric.to_dict, mbind, method_bind, attr. rewrite Hi.
  eexists. split; [reflexivity|]. split; [|by repeat split].
  rewrite dom_list_to_map_L. cbn. set_solver.
Qed.

Lemma Metric_to_dict_interval (self : object) (i : float) (n : Z) :
  interval self = Some i → Py.int i = inr n →
  ∃ d : payload,
    Metric.to_dict self = (inr d, self)
    ∧ dom d = {["metric"; "type"; "common"; "points"; "tags"; "interval"]}
    ∧ d !! "metric" = Some (FStr (name self))
    ∧ d !! "type" = Some (FStr (metric_type (cls self)))
    ∧ d !! "common" = Some (FBool (is_common_to_all_tracers self))
    ∧ d !! "points" = Some (FPoints (_points self))
    ∧ d !! "tags" = Some (FStrs (Metric.tag_strings (_tags self)))
    ∧ d !! "interval" = Some (FInt n).
Proof.
  intros Hi Hn. unfold Metric.to_dict, mbind, method_bind, attr, lift. rewrite Hi, Hn.
  eexists. split; [reflexivity|]. split; [|by repeat split].
  rewrite dom_insert_L, dom_list_to_map_L. cbn. set_solver.
Qed.

Lemma Metric_to_dict_raises (self : object) (i : float) (e : Py.exn) :
  interval self = Some i → Py.int i = inl e → Metric.to_dict self = (inl e, self).
Proof.
  intros Hi He. unfold Metric.to_dict, mbind, method_bind, attr, lift. by rewrite Hi, He.
Qed.

End Schema.

(** ** Objects a program can hold *)

Section Reachable.
Context {rt : Py.Runtime}.

Lemma new_concrete (c : class) (namespace name : string) (tags : Py.tags)
    (common : bool) (interval : option float) :
  c ≠ MetricClass →
  Metric.new c namespace name tags common interval =
    inr (Metric.__init__ c namespace name tags common interval).
Proof. by destruct c. Qed.

Lemma new_inv (c : class) (namespace name : string) (tags : Py.tags)
    (common : bool) (interval : option float) (self : object) :
  Metric.new c namespace name tags common interval = inr self →
  c ≠ MetricClass ∧ self = Metric.__init__ c namespace name tags common interval.
Proof. destruct c; cbn; by intros [= <-]. Qed.

Lemma add_point_shape (now value : float) (self : object) :
  points_shape self → points_shape (add_point now value self).2.
Proof.
  unfold points_shape, add_point. destruct self as [c ns n t cm i ps cnt].
  destruct c; cbn; try done. intros [->|(ts & sum & ->)]; cbn; right; by do 2 eexists.
Qed.

Lemma reachable_shape (self : object) : reachable self → points_shape self.
Proof.
  induction 1 as [c ns n t cm i self Hnew|now v self _ IH|self _ IH].
  - apply new_inv in Hnew as [Hc ->]. unfold points_shape. cbn. destruct c; auto.
  - by apply add_point_shape.
  - by rewrite to_dict_self.
Qed.

Lemma add_point_returns (now value : float) (self : object) :
  points_shape self → (add_point now value self).1 = inr ().
Proof.
  unfold points_shape, add_point. destruct self as [c ns n t cm i ps cnt].
  destruct c; cbn; try done. by intros [->|(ts & sum & ->)].
Qed.

Lemma add_points_shape (calls : list (float * float)) (self : object) :
  points_shape self →
  (add_points calls self).1 = inr () ∧ points_shape (add_points calls self).2.
Proof.
  revert self. induction calls as [|[now v] calls IH]; intros self Hs; [done|].
  rewrite add_points_cons.
  pose proof (add_point_returns now v self Hs) as Hr.
  pose proof (add_point_shape now v self Hs) as Hs'.
  destruct (add_point now v self) as [[e|[]] self']; [done|]. by apply IH.
Qed.

Lemma to_dict_returns_iff (self : object) :
  cls self ≠ DistributionMetricClass →
  (∃ d, to_dict self = (inr d, self))
  ↔ interval self = None ∨ ∃ i, interval self = Some i ∧ Py.is_finite i = true.
Proof.
  intros Hc.
  assert (to_dict self = Metric.to_dict self) as -> by (unfold to_dict; by destruct (cls self)).
  destruct (interval self) as [i|] eqn:Hi.
  - destruct (Py.is_finite i) eqn:Hf.
    + split; [eauto|]. intros _. destruct (int_finite i Hf) as [n Hn].
      destruct (Metric_to_dict_interval self i n Hi Hn) as (d & -> & _). eauto.
    + destruct (int_not_finite i Hf) as [e He].
      rewrite (Metric_to_dict_raises self i e Hi He).
      split; [by intros [d ?]|]. intros [?|(i' & [= <-] & ?)]; congruence.
  - split; [auto|]. intros _.
    destruct (Metric_to_dict_no_interval self Hi) as (d & -> & _). eauto.
Qed.

End Reachable.

(** ** Serialization *)

Section Serialization.
Context {rt : Py.Runtime}.

(** C5, as the code has it.  [to_dict] on a [DistributionMetric] always
    returns a payload whose keys are exactly [metric], [points] and [tags]:
    no [type], no [common], no [interval].  On a [CountMetric], [GaugeMetric]
    or [RateMetric] whose interval is [None] it returns a payload with
    [type] and [common] and without [interval]; when the interval is a finite
    float it returns a payload with [type], [common] and [interval], the
    latter being [int(interval)]; when the interval is NaN or an infinity,
    [int] raises and [to_dict] returns no payload.  The object is the same
    afterwards in every case. *)
Theorem to_dict_schema (self : object) :
  (cls self = DistributionMetricClass →
     ∃ d : payload,
       to_dict self = (inr d, self)
       ∧ dom d = {["metric"; "points"; "tags"]}
       ∧ d !! "type" = None ∧ d !! "common" = None ∧ d !! "interval" = None)
  ∧ (cls self ∈ [CountMetricClass; GaugeMetricClass; RateMetricClass] →
     match interval self with
     | None =>
         ∃ d : payload,
           to_dict self = (inr d, self)
           ∧ dom d = {["metric"; "type"; "common"; "points"; "tags"]}
           ∧ d !! "type" = Some (FStr (metric_type (cls self)))
           ∧ d !! "common" = Some (FBool (is_common_to_all_tracers self))
           ∧ d !! "interval" = None
     | Some i =>
         if Py.is_finite i then
           ∃ (d : payload) (n : Z),
             to_dict self = (inr d, self)
             ∧ Py.int i = inr n
             ∧ dom d = {["metric"; "type"; "common"; "points"; "tags"; "interval"]}
             ∧ d !! "type" = Some (FStr (metric_type (cls self)))
             ∧ d !! "common" = Some (FBool (is_common_to_all_tracers self))
             ∧ d !! "interval" = Some (FInt n)
         else
           ∃ e, Py.int i = inl e ∧ to_dict self = (inl e, self)
     end).
Proof.
  split.
  - intros Hc. unfold to_dict. rewrite Hc.
    destruct (Distribution_to_dict_payload self)
      as (d & Hd & Hdom & _ & _ & _ & Htype & Hcommon & Hint).
    by exists d.
  - intros Hc.
    assert (to_dict self = Metric.to_dict self) as ->.
    { unfold to_dict. destruct (cls self); try done. exfalso.
      repeat (apply elem_of_cons in Hc as [?|Hc]; [done|]). by apply elem_of_nil in Hc. }
    destruct (interval self) as [i|] eqn:Hi.
    + destruct (Py.is_finite i) eqn:Hf.
      * destruct (int_finite i Hf) as [n Hn].
        destruct (Metric_to_dict_interval self i n Hi Hn)
          as (d & Hd & Hdom & _ & Htype & Hcommon & _ & _ & Hint).
        by exists d, n.
      * destruct (int_not_finite i Hf) as [e He]. exists e.
        by rewrite (Metric_to_dict_raises self i e Hi He).
    + destruct (Metric_to_dict_no_interval self Hi)
        as (d & Hd & Hdom & _ & Htype & Hcommon & _ & _ & Hint).
      by exists d.
Qed.

(** C8, as the code has it.  Whatever the class and the arguments, the
    constructed object stores [name.lower()], and still does after any run
    of [add_point] calls.  Every payload [to_dict] returns has it under
    [metric]; [to_dict] does return one for a [DistributionMetric], and for
    the other classes when the interval is [None] or a finite float. *)
Theorem name_is_lowered (c : class) (namespace name0 : string) (tags : Py.tags)
    (common : bool) (interval0 : option float) (self : object)
    (calls : list (float * float)) :
  Metric.new c namespace name0 tags common interval0 = inr self →
  name self = Py.lower name0
  ∧ name (add_points calls self).2 = Py.lower name0
  ∧ (∀ d, (to_dict (add_points calls self).2).1 = inr d →
       d !! "metric" = Some (FStr (Py.lower name0)))
  ∧ (c = DistributionMetricClass ∨ interval0 = None
       ∨ (∃ i, interval0 = Some i ∧ Py.is_finite i = true) →
     ∃ d, (to_dict (add_points calls self).2).1 = inr d
          ∧ d !! "metric" = Some (FStr (Py.lower name0))).
Proof.
  intros Hnew. apply new_inv in Hnew as [Hc ->].
  set (self := Metric.__init__ c namespace name0 tags common interval0).
  destruct (add_points_coordinates calls self) as (Hcls & _ & Hname & _ & _ & Hint).
  set (self' := (add_points calls self).2) in *.
  change (name self) with (Py.lower name0) in *.
  change (cls self) with c in Hcls. change (interval self) with interval0 in Hint.
  assert (∀ d, (to_dict self').1 = inr d → d !! "metric" = Some (FStr (Py.lower name0)))
    as Hmetric.
  { intros d. rewrite <- Hname. unfold to_dict.
    destruct (decide (cls self' = DistributionMetricClass)) as [->|Hd].
    - destruct (Distribution_to_dict_payload self') as (d' & -> & _ & Hm & _).
      by intros [= <-].
    - assert ((match cls self' with
               | DistributionMetricClass => DistributionMetric.to_dict self'
               | _ => Metric.to_dict self'
               end) = Metric.to_dict self') as -> by (by destruct (cls self')).
      destruct (interval self') as [i|] eqn:Hi.
      + destruct (Py.int i) as [e|n] eqn:Hn.
        * by rewrite (Metric_to_dict_raises self' i e Hi Hn).
        * destruct (Metric_to_dict_interval self' i n Hi Hn) as (d' & -> & _ & Hm & _).
          by intros [= <-].
      + destruct (Metric_to_dict_no_interval self' Hi) as (d' & -> & _ & Hm & _).
        by intros [= <-]. }
  repeat split; [done|done|].
  intros Hok.
  assert (∃ d, to_dict self' = (inr d, self')) as [d Hd].
  { destruct (decide (cls self' = DistributionMetricClass)) as [Hd|Hd].
    - unfold to_dict. rewrite Hd.
      destruct (Distribution_to_dict_payload self') as (d & ? & _). eauto.
    - apply to_dict_returns_iff; [done|]. rewrite Hint.
      destruct Hok as [->|[->|?]]; [congruence|auto..]. }
  exists d. rewrite Hd. split; [done|]. apply Hmetric. by rewrite Hd.
Qed.

(** C9. [to_dict] assigns nothing: whatever the class and the state, and
    whether it returns or raises, the object afterwards is the object
    before, slot by slot; in particular [_points] is not cleared and
    [_count] is not reset.  The same holds of both implementations,
    [Metric.to_dict] and [DistributionMetric.to_dict]. *)
Theorem to_dict_mutates_nothing (self : object) :
  (to_dict self).2 = self
  ∧ (Metric.to_dict self).2 = self
  ∧ (DistributionMetric.to_dict self).2 = self
  ∧ (let self' := (to_dict self).2 in
     name self' = name self
     ∧ namespace self' = namespace self
     ∧ _tags self' = _tags self
     ∧ is_common_to_all_tracers self' = is_common_to_all_tracers self
     ∧ interval self' = interval self
     ∧ _points self' = _points self
     ∧ _count self' = _count self).
Proof.
  pose proof (to_dict_self self) as Hself.
  split; [done|]. split; [apply Metric_to_dict_self|].
  split; [apply Distribution_to_dict_self|].
  cbv zeta. by rewrite Hself.
Qed.

(** C7, as the code has it.  The body of [Metric.add_point] is [pass]: called
    directly it returns [None], raises nothing and assigns nothing.  What
    keeps a class without its own [add_point] from being used is the
    constructor: instantiating [Metric] raises [TypeError], while each of the
    four concrete classes instantiates.  On every object a program can hold,
    [add_point] and [__hash__] return; [to_dict] returns for a
    [DistributionMetric], and for the other classes exactly when the interval
    is [None] or a finite float. *)
Theorem add_point_abstract :
  (∀ value self, Metric.add_point value self = (inr (), self))
  ∧ (∀ now value self, cls self = MetricClass → add_point now value self = (inr (), self))
  ∧ (∀ namespace name tags common interval,
       Metric.new MetricClass namespace name tags common interval = inl Py.TypeError)
  ∧ (∀ c namespace name tags common interval,
       c ≠ MetricClass →
       Metric.new c namespace name tags common interval =
         inr (Metric.__init__ c namespace name tags common interval))
  ∧ (∀ self, reachable self →
       cls self ≠ MetricClass
       ∧ (∀ now value, (add_point now value self).1 = inr ())
       ∧ (∀ calls, (add_points calls self).1 = inr ())
       ∧ (∃ h, __hash__ self = (inr h, self))
       ∧ (cls self = DistributionMetricClass → ∃ d, to_dict self = (inr d, self))
       ∧ (cls self ≠ DistributionMetricClass →
          (∃ d, to_dict self = (inr d, self))
          ↔ interval self = None ∨ ∃ i, interval self = Some i ∧ Py.is_finite i = true)).
Proof.
  split; [done|]. split; [intros now v self Hc; unfold add_point; by rewrite Hc|].
  split; [done|]. split; [intros; by apply new_concrete|].
  intros self Hr. pose proof (reachable_shape self Hr) as Hs.
  split; [intros Hc; unfold points_shape in Hs; by rewrite Hc in Hs|].
  split; [intros; by apply add_point_returns|].
  split; [intros; by apply add_points_shape|].
  split; [by eexists|]. split.
  - intros Hc. unfold to_dict. rewrite Hc.
    destruct (Distribution_to_dict_payload self) as (d & ? & _). eauto.
  - apply to_dict_returns_iff.
Qed.

End Serialization.

(** ** Identity *)

Section Identity.
Context {rt : Py.Runtime}.

(** C10. [__hash__] reads the stored name, which [__init__] lowered: two
    metrics of one class with the same namespace and tags, whose names differ
    only in letter case, have the same hash.  [get_id] on the two names as
    given hashes two different tuples, and nothing makes its results equal:
    there is a [hash] that tells them apart. *)
Theorem hash_ignores_case (c : class) (namespace name1 name2 : string) (tags : Py.tags)
    (common1 common2 : bool) (interval1 interval2 : option float) :
  Py.lower name1 = Py.lower name2 →
  __hash__ (Metric.__init__ c namespace name1 tags common1 interval1)
    = (inr (Metric.get_id (Py.lower name1) namespace tags (metric_type c)),
       Metric.__init__ c namespace name1 tags common1 interval1)
  ∧ (__hash__ (Metric.__init__ c namespace name1 tags common1 interval1)).1
    = (__hash__ (Metric.__init__ c namespace name2 tags common2 interval2)).1
  ∧ (name1 ≠ name2 →
     (name1, namespace, tags, metric_type c) ≠ (name2, namespace, tags, metric_type c)
     ∧ ∃ rt' : Py.Runtime,
         (∀ s, @Py.lower rt' s = @Py.lower rt s)
         ∧ @Metric.get_id rt' name1 namespace tags (metric_type c)
           ≠ @Metric.get_id rt' name2 namespace tags (metric_type c)).
Proof.
  intros Hlow.
  assert (∀ n common interval,
    __hash__ (Metric.__init__ c namespace n tags common interval)
      = (inr (Metric.get_id (Py.lower n) namespace tags (metric_type c)),
         Metric.__init__ c namespace n tags common interval)) as Hhash by done.
  split; [apply Hhash|]. split.
  { rewrite !Hhash. cbn [fst]. by rewrite Hlow. }
  intros Hne. split; [congruence|].
  unshelve eexists {| Py.lower := @Py.lower rt;
                      Py.hash := λ k, if decide (k.1.1.1 = name1) then 0 else 1 |}.
  { intros k. cbn. case_decide; lia. }
  split; [done|]. unfold Metric.get_id. cbn.
  rewrite decide_True by done. by rewrite decide_False by done.
Qed.

End Identity.

(** ** The theorems at work *)

(** [requests.add_point(2.0)] at time 100, [requests.add_point(3.0)] at time
    105: one point, [[100, 5.0]]; a third call with [0.5] makes it
    [[100, 5.5]]. *)
Lemma count_accumulates_witness :
  (cls Examples.requests = CountMetricClass ∧ _points Examples.requests = [])
  ∧ add_points [(100, 2); (105, 3)]%float Examples.requests
    = (inr (), set_points [PointList 100 5] Examples.requests)
  ∧ add_points [(100, 2); (105, 3); (110, 0.5)]%float Examples.requests
    = (inr (), set_points [PointList 100 5.5] Examples.requests)
  ∧ _points (add_points [(100, 2); (105, 3)]%float Examples.requests).2
    = [PointList 100 5]
  ∧ length (_points (add_points [(100, 2); (105, 3)]%float Examples.requests).2) = 1%nat
  ∧ _points (add_points [(100, 2); (105, 3); (110, 0.5)]%float Examples.requests).2
    = [PointList 100 5.5].
Proof.
  split; [done|].
  destruct (count_accumulates Examples.requests 100 2 [(105, 3)%float] eq_refl eq_refl)
    as (Hrun & Hnext & Hpoints & Hlength & Hpoints' & _).
  split; [exact Hrun|]. split.
  { change (add_points [(100, 2); (105, 3); (110, 0.5)]%float Examples.requests)
      with (add_point 110 0.5 (add_points [(100, 2); (105, 3)]%float Examples.requests).2).
    exact (Hnext 110%float 0.5%float). }
  split; [exact Hpoints|]. split; [exact Hlength|].
  change (add_points [(100, 2); (105, 3); (110, 0.5)]%float Examples.requests).2
    with (add_point 110 0.5 (add_points [(100, 2); (105, 3)]%float Examples.requests).2).2.
  exact (Hpoints' 110%float 0.5%float).
Defined.

(** [hits] has interval [10.0]: after values [2.0] and [3.0] the count is
    [5.0] and the point is [(105, 0.5)]. *)
Lemma rate_derivation_witness :
  cls Examples.hits = RateMetricClass
  ∧ add_points [(100, 2); (105, 3)]%float Examples.hits
    = (inr (), set_points [PointTuple 105 0.5] (set_count 5 Examples.hits))
  ∧ _points (add_points [(100, 2); (105, 3)]%float Examples.hits).2 = [PointTuple 105 0.5]
  ∧ _count (add_points [(100, 2); (105, 3)]%float Examples.hits).2 = 5%float.
Proof.
  split; [done|].
  destruct (rate_derivation (rt := AsciiRuntime.runtime) Examples.hits
              [(100, 2)%float] 105 3 eq_refl)
    as [(rate & Hrun & Hpos & _ & _ & Hpoints & _ & Hcount) _].
  rewrite (Hpos 10%float eq_refl eq_refl) in Hrun, Hpoints.
  split; [exact Hrun|]. split; [exact Hpoints|exact Hcount].
Defined.

(** [cpu.add_point(2.0)] then [cpu.add_point(3.0)] at time 105: the point is
    [(105, 3.0)]. *)
Lemma gauge_last_write_wins_witness :
  cls Examples.cpu = GaugeMetricClass
  ∧ add_points [(100, 2); (105, 3)]%float Examples.cpu
    = (inr (), set_points [PointTuple 105 3] Examples.cpu).
Proof.
  split; [done|].
  exact (proj1 (gauge_last_write_wins Examples.cpu [(100, 2)%float] 105 3 eq_refl)).
Defined.

(** [latency.add_point(1.0)] then [latency.add_point(2.5)]: the points are
    [[1.0, 2.5]]. *)
Lemma distribution_appends_witness :
  (cls Examples.latency = DistributionMetricClass ∧ _points Examples.latency = [])
  ∧ add_points [(100, 1); (105, 2.5)]%float Examples.latency
    = (inr (), set_points [PointValue 1; PointValue 2.5] Examples.latency).
Proof.
  split; [done|].
  exact (proj1 (distribution_appends Examples.latency
                  [(100, 1); (105, 2.5)]%float eq_refl eq_refl)).
Defined.

(** [CountMetric("tracer", "Requests", ...)] stores ["requests"] and
    serializes it under [metric]. *)
Lemma name_is_lowered_witness :
  Metric.new (rt := AsciiRuntime.runtime)
    CountMetricClass "tracer" "Requests" (Some [("env", "prod")]) true None
    = inr Examples.requests
  ∧ name Examples.requests = "requests"
  ∧ ∃ d : payload,
      (to_dict (rt := AsciiRuntime.runtime)
         (add_points [(100, 2); (105, 3)]%float Examples.requests).2).1 = inr d
      ∧ d !! "metric" = Some (FStr "requests").
Proof.
  split; [done|].
  destruct (name_is_lowered (rt := AsciiRuntime.runtime)
              CountMetricClass "tracer" "Requests" (Some [("env", "prod")]) true None
              Examples.requests [(100, 2); (105, 3)]%float eq_refl)
    as (Hname & _ & _ & Hdict).
  split; [exact Hname|]. apply Hdict. by right; left.
Defined.

(** Metrics named ["Requests"] and ["requests"] hash alike, while [get_id] on
    the two names gives two keys under [AsciiRuntime.hash]. *)
Lemma hash_ignores_case_witness :
  AsciiRuntime.lower "Requests" = AsciiRuntime.lower "requests"
  ∧ (__hash__ (rt := AsciiRuntime.runtime) Examples.requests).1
    = (__hash__ (rt := AsciiRuntime.runtime)
         (Metric.__init__ (rt := AsciiRuntime.runtime)
            CountMetricClass "tracer" "requests" (Some [("env", "prod")]) false None)).1
  ∧ Metric.get_id (rt := AsciiRuntime.runtime) "Requests" "tracer" (Some [("env", "prod")]) "count"
    ≠ Metric.get_id (rt := AsciiRuntime.runtime) "requests" "tracer" (Some [("env", "prod")]) "count".
Proof.
  split; [done|]. split; [|by vm_compute].
  exact (proj1 (proj2 (hash_ignores_case (rt := AsciiRuntime.runtime)
    CountMetricClass "tracer" "Requests" "requests" (Some [("env", "prod")])
    true false None None eq_refl))).
Defined.

(** ** Where the code departs from a universal reading *)

(** An interval that is not [None] and yet no [interval] key, nor [type] nor
    [common]: with [float("inf")] as interval, [to_dict] on a [GaugeMetric]
    raises [OverflowError] and returns no payload. *)
Lemma to_dict_infinite_interval :
  Metric.new (rt := AsciiRuntime.runtime) GaugeMetricClass "tracer" "Cpu" None false
    (Some infinity) = inr Examples.cpu_inf
  ∧ interval Examples.cpu_inf = Some infinity
  ∧ to_dict (rt := AsciiRuntime.runtime) Examples.cpu_inf
    = (inl Py.OverflowError, Examples.cpu_inf).
Proof. by vm_compute. Qed.

(** [Metric.add_point(requests, 1.0)], the abstract method called directly:
    it returns [None] and [requests] is as before.  The [TypeError] is raised
    by [Metric("tracer", "Requests", None, True)], before any call. *)
Lemma Metric_add_point_returns :
  Metric.add_point 1 Examples.requests = (inr (), Examples.requests)
  ∧ Metric.new (rt := AsciiRuntime.runtime) MetricClass "tracer" "Requests" None true None
    = inl Py.TypeError.
Proof. by split. Qed.

(** A construction for which [to_dict] has no [metric] to show: with
    [float("nan")] as interval, [to_dict] on a [CountMetric] raises
    [ValueError]. *)
Lemma to_dict_nan_interval :
  Metric.new (rt := AsciiRuntime.runtime) CountMetricClass "tracer" "Requests" None true
    (Some nan) = inr Examples.requests_nan
  ∧ name Examples.requests_nan = "requests"
  ∧ to_dict (rt := AsciiRuntime.runtime) Examples.requests_nan
    = (inl Py.ValueError, Examples.requests_nan).
Proof. by vm_compute. Qed.

(** ** Further properties of the metric classes *)

Section Invariants.
Context {rt : Py.Runtime}.

Lemma add_point_count (now value : float) (self : object) :
  _count (add_point now value self).2
    = if decide (cls self = RateMetricClass) then (_count self + value)%float
      else _count self.
Proof.
  unfold add_point. destruct self as [c ns n t cm i ps cnt]. destruct c; try done.
  cbn. by destruct ps as [|[ts sum|ts sum|x] rest].
Qed.

(** What is stored in [_points], class by class, on every object a program
    can hold: a [CountMetric] has no entry or the single list [[ts, sum]], a
    [GaugeMetric] or [RateMetric] no entry or the single tuple [(ts, v)], a
    [DistributionMetric] bare values only.  No such object is an instance of
    [Metric] itself, and [_count] is still [0.0] on every class but
    [RateMetric]. *)
Theorem reachable_points (self : object) :
  reachable self →
  match cls self with
  | MetricClass => False
  | CountMetricClass =>
      (_points self = [] ∨ ∃ ts sum, _points self = [PointList ts sum])
      ∧ _count self = 0%float
  | GaugeMetricClass =>
      (_points self = [] ∨ ∃ ts v, _points self = [PointTuple ts v])
      ∧ _count self = 0%float
  | RateMetricClass =>
      _points self = [] ∨ ∃ ts v, _points self = [PointTuple ts v]
  | DistributionMetricClass =>
      (∃ vs, _points self = PointValue <$> vs) ∧ _count self = 0%float
  end.
Proof.
  induction 1 as [c ns n t cm i self Hnew|now v self _ IH|self _ IH].
  - apply new_inv in Hnew as [Hc ->]. cbn. destruct c; try done; auto.
    split; [by exists []|done].
  - pose proof (add_point_count now v self) as Hcount.
    destruct (add_point_coordinates now v self) as (Hcls & _).
    rewrite Hcls. unfold add_point in *.
    destruct self as [c ns n t cm i ps cnt]. cbn in IH, Hcount |- *.
    destruct c; cbn in Hcount |- *; try done.
    + destruct IH as [[->|(ts & sum & ->)] ->]; cbn; (split; [right; eauto|done]).
    + destruct IH as [_ ->]. split; [right; eauto|done].
    + right; eauto.
    + destruct IH as [[vs ->] ->]. split; [|done].
      exists (vs ++ [v]). by rewrite fmap_app.
  - by rewrite to_dict_self.
Qed.

(** [add_point] assigns [_points] and, in [RateMetric] only, [_count]: the
    class, namespace, name, tags, common flag and interval of the object are
    the same afterwards, whether the call returns or raises. *)
Theorem add_point_frame (now value : float) (self : object) :
  same_coordinates self (add_point now value self).2
  ∧ (cls self = RateMetricClass →
     _count (add_point now value self).2 = (_count self + value)%float)
  ∧ (cls self ≠ RateMetricClass → _count (add_point now value self).2 = _count self).
Proof.
  split; [apply add_point_coordinates|].
  rewrite add_point_count. split; intros Hc.
  - by rewrite decide_True.
  - by rewrite decide_False.
Qed.

(** The one way [add_point] raises: on a [CountMetric] whose first stored
    entry is not a list ([self._points[0][1] += value] on a tuple or on a
    float).  The exception is [TypeError] and nothing has been assigned. *)
Theorem add_point_raises_iff (now value : float) (self : object) (e : Py.exn) :
  ((add_point now value self).1 = inl e
   ↔ cls self = CountMetricClass
     ∧ e = Py.TypeError
     ∧ ∃ p rest, _points self = p :: rest ∧ ∀ ts sum, p ≠ PointList ts sum)
  ∧ ((add_point now value self).1 = inl e → (add_point now value self).2 = self).
Proof.
  unfold add_point. destruct self as [c ns n t cm i ps cnt].
  destruct c; cbn; try (split; [split; [done|by intros [? _]]|done]).
  destruct ps as [|[ts sum|ts sum|x] rest]; cbn.
  - split; [split; [done|]|done]. by intros (_ & _ & p & r & ? & _).
  - split; [split; [done|]|done].
    intros (_ & _ & p & r & [= <- <-] & Hp). by destruct (Hp ts sum).
  - split; [split|done].
    + intros [= <-]. repeat split. by exists (PointTuple ts sum), rest.
    + by intros (_ & -> & _).
  - split; [split|done].
    + intros [= <-]. repeat split. by exists (PointValue x), rest.
    + by intros (_ & -> & _).
Qed.

(** [hash(self)] is fixed at construction: it always returns, it reads only
    the name, the namespace, the tags and the class, and no run of
    [add_point] calls and no [to_dict] changes it. *)
Theorem hash_stable (self : object) (calls : list (float * float)) :
  __hash__ self
    = (inr (Metric.get_id (name self) (namespace self) (_tags self) (metric_type (cls self))),
       self)
  ∧ (__hash__ (add_points calls self).2).1 = (__hash__ self).1
  ∧ (__hash__ (to_dict self).2).1 = (__hash__ self).1
  ∧ ∀ self',
      cls self' = cls self → namespace self' = namespace self →
      name self' = name self → _tags self' = _tags self →
      (__hash__ self').1 = (__hash__ self).1.
Proof.
  assert (∀ o, __hash__ o
    = (inr (Metric.get_id (name o) (namespace o) (_tags o) (metric_type (cls o))), o))
    as Hhash by done.
  split; [done|]. split.
  { destruct (add_points_coordinates calls self) as (Hc & Hns & Hn & Ht & _).
    rewrite !Hhash. cbn [fst]. by rewrite Hc, Hns, Hn, Ht. }
  split; [by rewrite to_dict_self|].
  intros self' Hc Hns Hn Ht. rewrite !Hhash. cbn [fst]. by rewrite Hc, Hns, Hn, Ht.
Qed.

End Invariants.

(** ** Recording, then serializing *)

Lemma int_zero (x : float) : (x =? 0)%float = true → Py.int x = inr 0.
Proof.
  rewrite FloatAxioms.eqb_spec. unfold SFeqb, Py.int.
  change (Prim2SF 0) with (S754_zero false).
  destruct (Prim2SF x) as [[]|[]| |[] m e]; cbn; congruence.
Qed.

Section Payloads.
Context {rt : Py.Runtime}.

(** A new [CountMetric] with no interval, after [add_point(v1)], ...,
    [add_point(vn)] (at least one): [to_dict] returns exactly the five keys
    [metric], [type], [common], [points], [tags], with the lowered name,
    ["count"], the flag as given, the one point [[t1, v1 + ... + vn]] and one
    string per tag pair. *)
Theorem count_serialized (namespace name0 : string) (tags : Py.tags) (common : bool)
    (t1 v1 : float) (calls : list (float * float)) :
  let self := Metric.__init__ CountMetricClass namespace name0 tags common None in
  to_dict (add_points ((t1, v1) :: calls) self).2
    = (inr (list_to_map
              [("metric", FStr (Py.lower name0));
               ("type", FStr "count");
               ("common", FBool common);
               ("points", FPoints [PointList t1 (total v1 calls.*2)]);
               ("tags", FStrs (Metric.tag_strings tags))]),
       set_points [PointList t1 (total v1 calls.*2)] self).
Proof.
  intros self.
  rewrite add_points_cons, (count_add_point_first t1 v1 self) by done.
  by rewrite (count_add_points_next calls t1 v1 [] (set_points [PointList t1 v1] self)).
Qed.

(** A new [DistributionMetric], whatever its common flag and interval, after
    [add_point(v1)], ..., [add_point(vn)]: [to_dict] returns exactly the three
    keys [metric], [points], [tags], the points being [[v1, ..., vn]]. *)
Theorem distribution_serialized (namespace name0 : string) (tags : Py.tags) (common : bool)
    (interval0 : option float) (calls : list (float * float)) :
  let self := Metric.__init__ DistributionMetricClass namespace name0 tags common interval0 in
  to_dict (add_points calls self).2
    = (inr (list_to_map
              [("metric", FStr (Py.lower name0));
               ("points", FPoints (PointValue <$> calls.*2));
               ("tags", FStrs (Metric.tag_strings tags))]),
       set_points (PointValue <$> calls.*2) self).
Proof. intros self. by rewrite (distribution_add_points calls self). Qed.

(** A new [RateMetric] with a finite interval [I > 0], after calls whose
    values add up to [T] from [0.0]: [to_dict] returns the six keys, with
    [interval] the integer [int(I)] and [points] the single tuple
    [(tn, T / I)], [tn] being the time of the last call; the rate is divided
    by the float [I], not by the integer sent with it. *)
Theorem rate_serialized (namespace name0 : string) (tags : Py.tags) (common : bool)
    (I : float) (calls : list (float * float)) (tn vn : float) :
  (0 <? I)%float = true → Py.is_finite I = true →
  let self := Metric.__init__ RateMetricClass namespace name0 tags common (Some I) in
  let T := total 0 (calls ++ [(tn, vn)]).*2 in
  ∃ n,
    Py.int I = inr n
    ∧ to_dict (add_points (calls ++ [(tn, vn)]) self).2
      = (inr (<["interval" := FInt n]>
                (list_to_map
                   [("metric", FStr (Py.lower name0));
                    ("type", FStr "rate");
                    ("common", FBool common);
                    ("points", FPoints [PointTuple tn (T / I)%float]);
                    ("tags", FStrs (Metric.tag_strings tags))])),
         set_points [PointTuple tn (T / I)%float] (set_count T self)).
Proof.
  intros Hpos Hfin self T.
  destruct (int_finite I Hfin) as [n Hn]. exists n. split; [done|].
  assert (T = (total 0 calls.*2 + vn)%float) as HT.
  { unfold T, total. by rewrite fmap_app, fold_left_app. }
  destruct (rate_add_points_returns calls self eq_refl) as [ps Hcalls].
  rewrite add_points_app, Hcalls, add_points_cons, rate_add_point by done.
  cbn [add_points mret method_ret snd _count interval set_points set_count self
       Metric.__init__].
  rewrite (truthy_pos I Hpos), <- HT.
  unfold to_dict, Metric.to_dict, mbind, method_bind, attr, lift. cbn. by rewrite Hn.
Qed.

(** An interval of [0.0] (or [-0.0]) is an interval all the same for
    [to_dict], which tests [is not None]: the key [interval] is there, with
    value [0].  [RateMetric.add_point] tests its truth value instead and
    stores the rate [0.0]. *)
Theorem zero_interval_serialized (self : object) (i : float) :
  cls self ≠ DistributionMetricClass →
  interval self = Some i → (i =? 0)%float = true →
  (∃ d : payload, to_dict self = (inr d, self) ∧ d !! "interval" = Some (FInt 0))
  ∧ (cls self = RateMetricClass →
     ∀ now value, _points (add_point now value self).2 = [PointTuple now 0]).
Proof.
  intros Hc Hi Hz. split.
  - assert (to_dict self = Metric.to_dict self) as ->
      by (unfold to_dict; by destruct (cls self)).
    destruct (Metric_to_dict_interval self i 0 Hi (int_zero i Hz))
      as (d & Hd & _ & _ & _ & _ & _ & _ & Hint).
    by exists d.
  - intros Hr now value. rewrite rate_add_point by done. cbn. rewrite Hi.
    by rewrite (truthy_zero i Hz).
Qed.

(** Whenever [to_dict] returns, [tags] holds one string per tag pair, in the
    order of the pairs, each the lowered ["key:value"]; it is the empty list
    when the tags are [None] or the empty tuple. *)
Theorem tags_serialized (self : object) (d : payload) :
  (to_dict self).1 = inr d →
  ∃ l,
    d !! "tags" = Some (FStrs l)
    ∧ length l = length (default [] (_tags self))
    ∧ ∀ i k v,
        default [] (_tags self) !! i = Some (k, v) →
        l !! i = Some (Py.lower (k +:+ ":" +:+ v)).
Proof.
  intros Hd.
  assert (d !! "tags" = Some (FStrs (Metric.tag_strings (_tags self)))) as Htags.
  { unfold to_dict in Hd.
    destruct (decide (cls self = DistributionMetricClass)) as [Hc|Hc].
    - rewrite Hc in Hd.
      destruct (Distribution_to_dict_payload self) as (d' & Hd' & _ & _ & _ & Ht & _).
      rewrite Hd' in Hd. by injection Hd as <-.
    - assert ((match cls self with
               | DistributionMetricClass => DistributionMetric.to_dict self
               | _ => Metric.to_dict self
               end) = Metric.to_dict self) as Heq by (by destruct (cls self)).
      rewrite Heq in Hd.
      destruct (interval self) as [i|] eqn:Hi.
      + destruct (Py.int i) as [e|n] eqn:Hn.
        * by rewrite (Metric_to_dict_raises self i e Hi Hn) in Hd.
        * destruct (Metric_to_dict_interval self i n Hi Hn)
            as (d' & Hd' & _ & _ & _ & _ & _ & Ht & _).
          rewrite Hd' in Hd. by injection Hd as <-.
      + destruct (Metric_to_dict_no_interval self Hi)
          as (d' & Hd' & _ & _ & _ & _ & _ & Ht & _).
        rewrite Hd' in Hd. by injection Hd as <-. }
  assert (Metric.tag_strings (_tags self)
          = (λ '(k, v), Py.lower (k +:+ ":" +:+ v)) <$> default [] (_tags self)) as Heq
    by (by destruct (_tags self) as [[|p pairs]|]).
  rewrite Heq in Htags. eexists. split; [exact Htags|].
  split; [by rewrite length_fmap|].
  intros i k v Hi. by rewrite list_lookup_fmap, Hi.
Qed.

End Payloads.

(** ** The further properties at work *)

(** [requests] after one [add_point]: one list entry, [_count] untouched. *)
Lemma reachable_points_witness :
  reachable (rt := AsciiRuntime.runtime) (add_point 100 2 Examples.requests).2
  ∧ (_points (add_point 100 2 Examples.requests).2 = []
     ∨ ∃ ts sum, _points (add_point 100 2 Examples.requests).2 = [PointList ts sum])
  ∧ _count (add_point 100 2 Examples.requests).2 = 0%float.
Proof.
  assert (reachable (rt := AsciiRuntime.runtime) (add_point 100 2 Examples.requests).2) as Hr.
  { apply reachable_add_point.
    by apply (reachable_new CountMetricClass "tracer" "Requests"
                (Some [("env", "prod")]) true None). }
  split; [exact Hr|].
  exact (reachable_points (rt := AsciiRuntime.runtime) _ Hr).
Defined.

(** [RateMetric("appsec", "Hits", None, True, 10.0)] after values [2.0] and
    [3.0]: [interval] is [10] and the point is [(105, 0.5)]. *)
Lemma rate_serialized_witness :
  ((0 <? 10)%float = true ∧ Py.is_finite 10 = true)
  ∧ ∃ d : payload,
      (to_dict (rt := AsciiRuntime.runtime)
         (add_points [(100, 2); (105, 3)]%float Examples.hits).2).1 = inr d
      ∧ d !! "interval" = Some (FInt 10)
      ∧ d !! "points" = Some (FPoints [PointTuple 105 0.5]).
Proof.
  split; [done|].
  destruct (rate_serialized (rt := AsciiRuntime.runtime) "appsec" "Hits" None true
              10 [(100, 2)%float] 105 3 eq_refl eq_refl) as (n & Hn & Hd).
  assert (n = 10) as -> by (vm_compute in Hn; congruence).
  eexists. split; [exact (f_equal fst Hd)|]. by split.
Defined.

(** With interval [0.0]: [interval] is serialized as [0], the rate is
    [0.0]. *)
Lemma zero_interval_serialized_witness :
  (cls MoreExamples.hits_zero_interval ≠ DistributionMetricClass
   ∧ interval MoreExamples.hits_zero_interval = Some 0%float
   ∧ (0 =? 0)%float = true)
  ∧ (∃ d : payload,
       to_dict (rt := AsciiRuntime.runtime) MoreExamples.hits_zero_interval
         = (inr d, MoreExamples.hits_zero_interval)
       ∧ d !! "interval" = Some (FInt 0))
  ∧ _points (add_point 100 2 MoreExamples.hits_zero_interval).2 = [PointTuple 100 0].
Proof.
  assert (cls MoreExamples.hits_zero_interval ≠ DistributionMetricClass) as Hc by done.
  split; [done|].
  destruct (zero_interval_serialized (rt := AsciiRuntime.runtime)
              MoreExamples.hits_zero_interval 0 Hc eq_refl eq_refl) as [Hd Hrate].
  split; [exact Hd|]. exact (Hrate eq_refl 100%float 2%float).
Defined.

(** [latency] has the tags [(("Env", "Prod"),)]: serialized, the one string
    ["env:prod"]. *)
Lemma tags_serialized_witness :
  ∃ (d : payload) (l : list string),
    (to_dict (rt := AsciiRuntime.runtime) Examples.latency).1 = inr d
    ∧ d !! "tags" = Some (FStrs l)
    ∧ length l = 1%nat
    ∧ l !! 0%nat = Some "env:prod".
Proof.
  destruct (tags_serialized (rt := AsciiRuntime.runtime) Examples.latency _ eq_refl)
    as (l & Hl & Hlen & Hi).
  eexists _, l. split; [reflexivity|]. split; [exact Hl|]. split; [exact Hlen|].
  exact (Hi 0%nat "Env" "Prod" eq_refl).
Defined.

(** ** HttpConfig: which headers are traced *)

Module HttpConfigFacts.
Import HttpConfig.

Section Facts.
Context {utils : Utils}.

Lemma body_lookup (h : string) (self : object) :
  _header_tag_name_body h self = _header_tags self !! normalize_header_name h.
Proof.
  unfold _header_tag_name_body. case_decide as Hempty; [|done].
  by rewrite Hempty, lookup_empty.
Qed.

Lemma cached_coherent (h : string) (self : object) :
  coherent self →
  (_header_tag_name h self).1 = _header_tags self !! normalize_header_name h
  ∧ _header_tags (_header_tag_name h self).2 = _header_tags self
  ∧ coherent (_header_tag_name h self).2.
Proof.
  intros Hco. unfold _header_tag_name, cached.
  destruct (_cache self !! h) as [r|] eqn:Hc; cbn.
  - split; [|done]. by rewrite (Hco h r Hc), body_lookup.
  - split; [apply body_lookup|]. split; [done|].
    intros h' r'. cbn. destruct (decide (h = h')) as [<-|Hne].
    + rewrite lookup_insert_eq. by intros [= <-].
    + rewrite lookup_insert_ne by done. apply Hco.
Qed.

Lemma empty_cache_coherent (self : object) : _cache self = ∅ → coherent self.
Proof. intros He h r. by rewrite He, lookup_empty. Qed.

Lemma reachable_coherent (self : object) : reachable self → coherent self.
Proof.
  induction 1 as [tags|self _ IH|w self _ IH|h self _ IH|h self _ IH|cache self _ IH Hsub].
  - by apply empty_cache_coherent.
  - by apply empty_cache_coherent.
  - unfold trace_headers. destruct (truthy w); cbn; [by apply empty_cache_coherent|done].
  - by apply cached_coherent.
  - unfold header_is_traced.
    pose proof (cached_coherent h self IH) as (_ & _ & Hco).
    by destruct (_header_tag_name h self).
  - intros h r Hr. apply (IH h r). by eapply lookup_weaken.
Qed.

Lemma header_is_traced_coherent (h : string) (self : object) :
  coherent self →
  (header_is_traced h self).1
    = bool_decide (is_Some (_header_tags self !! normalize_header_name h))
  ∧ _header_tags (header_is_traced h self).2 = _header_tags self.
Proof.
  intros Hco. unfold header_is_traced.
  destruct (cached_coherent h self Hco) as (Hr & Ht & _).
  destruct (_header_tag_name h self) as [r self']. cbn in *. subst r.
  split; [|done]. apply bool_decide_ext. by rewrite is_Some_alt; destruct (_ !! _).
Qed.

(** The dictionary after the loop of [trace_headers], key by key. *)
Lemma trace_fold_lookup (l : list string) (d : gmap string string) (k : string) :
  fold_left
    (λ d e, if decide (normalize_header_name e = "") then d
            else setdefault (normalize_header_name e) "" d) l d !! k
  = match d !! k with
    | Some v => Some v
    | None =>
        if bool_decide (k ≠ "" ∧ k ∈ normalize_header_name <$> l) then Some "" else None
    end.
Proof.
  revert d. induction l as [|e l IH]; intros d.
  - cbn. destruct (d !! k); [done|]. rewrite bool_decide_eq_false_2; [done|].
    intros [_ Hin]. by apply elem_of_nil in Hin.
  - cbn [fold_left]. rewrite IH, fmap_cons.
    assert (∀ P Q : Prop, ∀ (dp : Decision P) (dq : Decision Q), (P ↔ Q) →
      (if bool_decide P then Some "" else None)
      = (if bool_decide Q then Some "" else @None string)) as Hext.
    { intros P Q dp dq HPQ. by rewrite (bool_decide_ext P Q). }
    destruct (decide (normalize_header_name e = "")) as [He|He].
    + destruct (d !! k); [done|]. apply Hext. rewrite elem_of_cons.
      split; [intros [? ?]; auto|]. intros [? [->|?]]; [congruence|done].
    + unfold setdefault. destruct (d !! normalize_header_name e) as [v|] eqn:Hd.
      * destruct (d !! k) eqn:Hk; [done|]. apply Hext. rewrite elem_of_cons.
        split; [intros [? ?]; auto|]. intros [? [->|?]]; [congruence|done].
      * destruct (decide (normalize_header_name e = k)) as [<-|Hne].
        -- rewrite lookup_insert_eq, Hd. rewrite bool_decide_eq_true_2; [done|].
           split; [done|]. apply elem_of_cons. by left.
        -- rewrite lookup_insert_ne by done. destruct (d !! k); [done|].
           apply Hext. rewrite elem_of_cons.
           split; [intros [? ?]; auto|]. intros [? [->|?]]; [congruence|done].
Qed.

Lemma trace_headers_tags (w : whitelist) (self : object) (k : string) :
  truthy w = true →
  _header_tags (trace_headers w self).2 !! k
  = match _header_tags self !! k with
    | Some v => Some v
    | None =>
        if bool_decide (k ≠ "" ∧ k ∈ normalize_header_name <$> entries w) then Some ""
        else None
    end.
Proof. intros Hw. unfold trace_headers. rewrite Hw. cbn. apply trace_fold_lookup. Qed.

Lemma trace_headers_falsy (w : whitelist) (self : object) :
  truthy w = false → trace_headers w self = (false, self).
Proof. intros Hw. unfold trace_headers. by rewrite Hw. Qed.

Lemma trace_headers_cache (w : whitelist) (self : object) :
  truthy w = true → _cache (trace_headers w self).2 = ∅.
Proof. intros Hw. unfold trace_headers. by rewrite Hw. Qed.

(** The dictionary [__init__] builds: its keys are the normalized keys of
    the items, and an item is not replaced unless a later one has the same
    normalized key. *)
Lemma init_fold_notin (items : list (string * string)) (d : gmap string string) (k : string) :
  k ∉ normalize_header_name <$> items.*1 →
  fold_left (λ d '(k, v), <[normalize_header_name k := v]> d) items d !! k = d !! k.
Proof.
  revert d. induction items as [|[k' v'] items IH]; intros d Hk; [done|].
  cbn [fold_left]. rewrite !fmap_cons, not_elem_of_cons in Hk. destruct Hk as [Hne Hk].
  rewrite IH by done. by apply lookup_insert_ne.
Qed.

Lemma init_fold_is_Some (items : list (string * string)) (d : gmap string string) (k : string) :
  is_Some (fold_left (λ d '(k, v), <[normalize_header_name k := v]> d) items d !! k)
  ↔ k ∈ normalize_header_name <$> items.*1 ∨ is_Some (d !! k).
Proof.
  revert d. induction items as [|[k' v'] items IH]; intros d.
  - cbn. split; [auto|]. intros [Hin|?]; [|done]. by apply elem_of_nil in Hin.
  - cbn [fold_left]. rewrite IH, !fmap_cons, elem_of_cons. cbn [fst].
    destruct (decide (normalize_header_name k' = k)) as [<-|Hne].
    + rewrite lookup_insert_eq. split; [auto|]. intros _. right. by eexists.
    + rewrite lookup_insert_ne by done.
      split; [intros [?|?]; auto|]. intros [[?|?]|?]; [congruence|auto..].
Qed.

(** [header_is_traced] answers from the dictionary as it is now, cache or no
    cache: on every [HttpConfig] a program can hold, it returns [True]
    exactly when the normalized header name is a key of [_header_tags]; the
    call leaves [_header_tags] alone, and asking again gives the same
    answer. *)
Theorem header_is_traced_agrees (self : object) (h : string) :
  reachable self →
  (header_is_traced h self).1
    = bool_decide (is_Some (_header_tags self !! normalize_header_name h))
  ∧ _header_tags (header_is_traced h self).2 = _header_tags self
  ∧ (header_is_traced h (header_is_traced h self).2).1 = (header_is_traced h self).1.
Proof.
  intros Hr.
  destruct (header_is_traced_coherent h self (reachable_coherent self Hr)) as [Hans Htags].
  split; [done|]. split; [done|].
  pose proof (reachable_coherent _ (reachable_header_is_traced h self Hr)) as Hco.
  destruct (header_is_traced_coherent h _ Hco) as [-> _]. by rewrite Htags, Hans.
Qed.

(** What [trace_headers] does to the object.  With an empty string or an
    empty list it returns [None] and changes nothing.  Otherwise it returns
    [self] with the cache emptied, and a key of [_header_tags] then is a key
    that was there, with the tag it had, or the normalized form of an entry
    that is not the empty string, with the tag [""]. *)
Theorem trace_headers_result (w : whitelist) (self : object) :
  (truthy w = false → trace_headers w self = (false, self))
  ∧ (truthy w = true →
     (trace_headers w self).1 = true
     ∧ _cache (trace_headers w self).2 = ∅
     ∧ trace_query_string (trace_headers w self).2 = trace_query_string self
     ∧ ∀ k,
         _header_tags (trace_headers w self).2 !! k
         = match _header_tags self !! k with
           | Some tag => Some tag
           | None =>
               if bool_decide (k ≠ "" ∧ k ∈ normalize_header_name <$> entries w)
               then Some ""
               else None
           end).
Proof.
  split; intros Hw.
  - by apply trace_headers_falsy.
  - split; [unfold trace_headers; by rewrite Hw|].
    split; [by apply trace_headers_cache|].
    split; [unfold trace_headers; by rewrite Hw|].
    intros k. by apply trace_headers_tags.
Qed.

(** After [trace_headers(whitelist)], every entry of the whitelist whose
    normalized form is not empty is traced, under any spelling with the same
    normalized form, and header tracing is configured. *)
Theorem trace_headers_traces (w : whitelist) (self : object) (e h : string) :
  truthy w = true → e ∈ entries w →
  normalize_header_name e ≠ "" → normalize_header_name h = normalize_header_name e →
  (header_is_traced h (trace_headers w self).2).1 = true
  ∧ is_header_tracing_configured (trace_headers w self).2 = true.
Proof.
  intros Hw He Hne Hh.
  assert (is_Some (_header_tags (trace_headers w self).2 !! normalize_header_name h)) as Hk.
  { rewrite trace_headers_tags by done. destruct (_ !! _); [done|].
    rewrite bool_decide_eq_true_2; [done|]. rewrite Hh. split; [done|].
    by apply list_elem_of_fmap_2. }
  split.
  - destruct (header_is_traced_coherent h (trace_headers w self).2) as [-> _].
    + apply empty_cache_coherent. by apply trace_headers_cache.
    + by apply bool_decide_eq_true_2.
  - unfold is_header_tracing_configured. apply bool_decide_eq_true_2.
    destruct Hk as [tag Hk].
    destruct (decide (size (_header_tags (trace_headers w self).2) = 0%nat)) as [Hz|Hz]; [|lia].
    apply map_size_empty_iff in Hz. by rewrite Hz, lookup_empty in Hk.
Qed.

(** [trace_headers] only adds: a header that has a tag keeps that very tag
    through any [trace_headers] call, whatever the whitelist. *)
Theorem trace_headers_keeps (w : whitelist) (self : object) (h tag : string) :
  reachable self →
  (_header_tag_name h self).1 = Some tag →
  (_header_tag_name h (trace_headers w self).2).1 = Some tag.
Proof.
  intros Hr Htag.
  destruct (cached_coherent h self (reachable_coherent self Hr)) as (Hbefore & _).
  rewrite Hbefore in Htag.
  destruct (cached_coherent h _ (reachable_coherent _ (reachable_trace_headers w self Hr)))
    as (-> & _).
  destruct (truthy w) eqn:Hw.
  - by rewrite trace_headers_tags, Htag.
  - by rewrite trace_headers_falsy.
Qed.

(** Which headers a new [HttpConfig] traces: those whose normalized name is
    the normalized key of an item of [header_tags].  The tag of a header is
    the value of the last such item. *)
Theorem init_traces (header_tags : option (list (string * string))) (h : string) :
  (header_is_traced h (__init__ header_tags)).1
    = bool_decide (normalize_header_name h
                   ∈ normalize_header_name <$> (default [] header_tags).*1)
  ∧ ∀ items k tag rest,
      header_tags = Some (items ++ (k, tag) :: rest) →
      normalize_header_name h = normalize_header_name k →
      normalize_header_name k ∉ normalize_header_name <$> rest.*1 →
      (_header_tag_name h (__init__ header_tags)).1 = Some tag.
Proof.
  assert (∀ k, _header_tags (__init__ header_tags) !! k
               = fold_left (λ d '(k, v), <[normalize_header_name k := v]> d)
                   (default [] header_tags) (∅ : gmap string string) !! k) as Htags.
  { intros k. by destruct header_tags as [[|p items]|]. }
  assert (coherent (__init__ header_tags)) as Hco by (by apply empty_cache_coherent).
  split.
  - destruct (header_is_traced_coherent h _ Hco) as [-> _].
    apply bool_decide_ext. rewrite Htags, init_fold_is_Some, lookup_empty.
    split; [intros [?|[? ?]]; done|auto].
  - intros items k tag rest -> Hh Hrest.
    destruct (cached_coherent h _ Hco) as (-> & _).
    rewrite Htags.
    replace (default [] (Some (items ++ (k, tag) :: rest))) with (items ++ (k, tag) :: rest)
      by done.
    rewrite fold_left_app. cbn [fold_left].
    rewrite init_fold_notin by (by rewrite Hh).
    by rewrite Hh, lookup_insert_eq.
Qed.

(** Whitelists merge: tracing the same whitelist twice is tracing it once,
    and two whitelists traced in either order leave the same
    [_header_tags]. *)
Theorem trace_headers_merge (w w' : whitelist) (self : object) :
  trace_headers w (trace_headers w self).2 = trace_headers w self
  ∧ _header_tags (trace_headers w' (trace_headers w self).2).2
    = _header_tags (trace_headers w (trace_headers w' self).2).2.
Proof.
  split.
  - destruct (truthy w) eqn:Hw; [|by rewrite !(trace_headers_falsy w) by done].
    assert (_header_tags (trace_headers w (trace_headers w self).2).2
            = _header_tags (trace_headers w self).2) as Htags.
    { apply map_eq. intros k. rewrite !trace_headers_tags by done.
      destruct (_header_tags self !! k); [done|]. by case_bool_decide. }
    unfold trace_headers in *. rewrite !Hw in *. cbn in *. by rewrite Htags.
  - apply map_eq. intros k.
    destruct (truthy w) eqn:Hw, (truthy w') eqn:Hw'.
    + rewrite !trace_headers_tags by done.
      destruct (_header_tags self !! k); [done|]. by repeat case_bool_decide.
    + by rewrite !(trace_headers_falsy w') by done.
    + by rewrite !(trace_headers_falsy w) by done.
    + by rewrite !(trace_headers_falsy w), !(trace_headers_falsy w') by done.
Qed.

End Facts.

(** A configuration that has already answered for ["host"] answers for
    ["HOST"] from the dictionary, and says no for a header never
    registered. *)
Lemma header_is_traced_agrees_witness :
  reachable (utils := ascii_utils) (header_is_traced (utils := ascii_utils) "host" example).2
  ∧ (header_is_traced (utils := ascii_utils) "HOST"
       (header_is_traced (utils := ascii_utils) "host" example).2).1 = true
  ∧ (header_is_traced (utils := ascii_utils) "Accept"
       (header_is_traced (utils := ascii_utils) "host" example).2).1 = false.
Proof.
  assert (reachable (utils := ascii_utils)
            (header_is_traced (utils := ascii_utils) "host" example).2) as Hr.
  { apply reachable_header_is_traced, reachable_trace_headers, reachable_init. }
  split; [exact Hr|]. split.
  - exact (proj1 (header_is_traced_agrees (utils := ascii_utils) _ "HOST" Hr)).
  - exact (proj1 (header_is_traced_agrees (utils := ascii_utils) _ "Accept" Hr)).
Defined.

(** [HttpConfig().trace_headers(["Host", "User-Agent"])] traces ["HOST"]. *)
Lemma trace_headers_traces_witness :
  (truthy (WList ["Host"; "User-Agent"]) = true
   ∧ "Host" ∈ entries (WList ["Host"; "User-Agent"])
   ∧ AsciiRuntime.lower "Host" ≠ ""
   ∧ AsciiRuntime.lower "HOST" = AsciiRuntime.lower "Host")
  ∧ (header_is_traced (utils := ascii_utils) "HOST"
       (trace_headers (utils := ascii_utils) (WList ["Host"; "User-Agent"])
          (__init__ (utils := ascii_utils) None)).2).1 = true.
Proof.
  assert ("Host" ∈ entries (WList ["Host"; "User-Agent"])) as Hin by constructor.
  assert (AsciiRuntime.lower "Host" ≠ "") as Hne by done.
  split; [done|].
  exact (proj1 (trace_headers_traces (utils := ascii_utils) (WList ["Host"; "User-Agent"])
                  (__init__ (utils := ascii_utils) None) "Host" "HOST"
                  eq_refl Hin Hne eq_refl)).
Defined.

(** The tag given to [Content-Type] at construction survives
    [trace_headers("Content-Type")]. *)
Lemma trace_headers_keeps_witness :
  (reachable (utils := ascii_utils) example
   ∧ (_header_tag_name (utils := ascii_utils) "content-type" example).1
     = Some "http.content_type")
  ∧ (_header_tag_name (utils := ascii_utils) "content-type"
       (trace_headers (utils := ascii_utils) (WStr "Content-Type") example).2).1
    = Some "http.content_type".
Proof.
  assert (reachable (utils := ascii_utils) example) as Hr.
  { apply reachable_trace_headers, reachable_init. }
  split; [done|].
  exact (trace_headers_keeps (utils := ascii_utils) (WStr "Content-Type") example
           "content-type" "http.content_type" Hr eq_refl).
Defined.

End HttpConfigFacts.

(** ** check_uwsgi: when it raises and what it installs *)

Module UwsgiFacts.
Import Uwsgi.

Section Facts.
Context {p : Process}.

(** [check_uwsgi] raises [uWSGIMasterProcess] in one situation only: uwsgi
    is there with [enable-threads], has more than one process without
    [lazy-apps], this process is worker 0, [master] is set, and a worker
    callback, if given, can be registered.  In particular it never does in a
    worker, with [lazy-apps], or with a single process. *)
Theorem master_process_iff (worker_callback atexit_ : option callable) (e : env) :
  (check_uwsgi worker_callback atexit_ e).1 = uWSGIMasterProcess
  ↔ ∃ u,
      uwsgi_module e = Some u
      ∧ opt_get u "enable-threads" = true
      ∧ 1 < numproc u
      ∧ opt_get u "lazy-apps" = false
      ∧ worker_id u = 0
      ∧ opt_get u "master" = true
      ∧ (worker_callback = None ∨ uwsgidecorators e = true).
Proof.
  unfold check_uwsgi. destruct (uwsgi_module e) as [u|]; [|split; [done|by intros (? & ? & _)]].
  destruct (opt_get u "enable-threads") eqn:Ht; cbn;
    [|split; [done|intros (u' & [= <-] & ? & _); congruence]].
  destruct (Z.ltb_spec 1 (numproc u)) as [Hn|Hn]; cbn;
    [|split; [done|intros (u' & [= <-] & _ & ? & _); lia]].
  destruct (opt_get u "lazy-apps") eqn:Hl; cbn;
    [split; [done|intros (u' & [= <-] & _ & _ & ? & _); congruence]|].
  destruct (Z.eqb_spec (worker_id u) 0) as [Hw|Hw]; cbn;
    [|split; [done|intros (u' & [= <-] & _ & _ & _ & ? & _); lia]].
  destruct (opt_get u "master") eqn:Hm; cbn;
    [|split; [done|intros (u' & [= <-] & _ & _ & _ & _ & ? & _); congruence]].
  destruct worker_callback as [f|], (uwsgidecorators e) eqn:Hd; cbn.
  - split; [|done]. intros _. exists u. auto 10.
  - split; [done|]. intros (u' & _ & _ & _ & _ & _ & _ & [?|?]); congruence.
  - split; [|done]. intros _. exists u. auto 10.
  - split; [|done]. intros _. exists u. auto 10.
Qed.

(** The three configuration errors, each with its message and its cause. *)
Theorem config_error_iff (worker_callback atexit_ : option callable) (e : env)
    (message : string) :
  (check_uwsgi worker_callback atexit_ e).1 = uWSGIConfigError message
  ↔ ∃ u,
      uwsgi_module e = Some u
      ∧ ((opt_get u "enable-threads" = false
          ∧ message = "enable-threads option must be set to true")
         ∨ (opt_get u "enable-threads" = true
            ∧ 1 < numproc u ∧ opt_get u "lazy-apps" = false ∧ worker_id u = 0
            ∧ ((opt_get u "master" = false
                ∧ message = "master option must be enabled when multiple processes are used")
               ∨ (opt_get u "master" = true
                  ∧ worker_callback ≠ None ∧ uwsgidecorators e = false
                  ∧ message = "Running under uwsgi but uwsgidecorators cannot be imported")))).
Proof.
  unfold check_uwsgi. destruct (uwsgi_module e) as [u|]; [|split; [done|by intros (? & ? & _)]].
  destruct (opt_get u "enable-threads") eqn:Ht; cbn.
  2:{ split.
      - intros [= <-]. exists u. auto.
      - intros (u' & [= <-] & [[_ ->]|(? & _)]); [done|congruence]. }
  destruct (Z.ltb_spec 1 (numproc u)) as [Hn|Hn]; cbn.
  2:{ split; [done|]. intros (u' & [= <-] & [[? _]|(_ & ? & _)]); [congruence|lia]. }
  destruct (opt_get u "lazy-apps") eqn:Hl; cbn.
  { split; [done|]. intros (u' & [= <-] & [[? _]|(_ & _ & ? & _)]); congruence. }
  destruct (Z.eqb_spec (worker_id u) 0) as [Hw|Hw]; cbn.
  2:{ split; [done|]. intros (u' & [= <-] & [[? _]|(_ & _ & _ & ? & _)]); [congruence|lia]. }
  destruct (opt_get u "master") eqn:Hm; cbn.
  2:{ split.
      - intros [= <-]. exists u. split; [done|]. right. auto 10.
      - intros (u' & [= <-] & [[? _]|(_ & _ & _ & _ & [[_ ->]|(? & _)])]);
          [congruence|done|congruence]. }
  destruct worker_callback as [f|], (uwsgidecorators e) eqn:Hd; cbn.
  - split; [done|].
    intros (u' & [= <-] & [[? _]|(_ & _ & _ & _ & [[? _]|(_ & _ & ? & _)])]); congruence.
  - split.
    + intros [= <-]. exists u. split; [done|]. right. do 4 (split; [done|]). right. auto.
    + intros (u' & [= <-] & [[? _]|(_ & _ & _ & _ & [[? _]|(_ & _ & _ & ->)])]);
        [congruence|congruence|done].
  - split; [done|].
    intros (u' & [= <-] & [[? _]|(_ & _ & _ & _ & [[? _]|(_ & ? & _)])]); congruence.
  - split; [done|].
    intros (u' & [= <-] & [[? _]|(_ & _ & _ & _ & [[? _]|(_ & ? & _)])]); congruence.
Qed.

(** Nothing is registered and nothing is replaced unless
    [uWSGIMasterProcess] is raised: when [check_uwsgi] returns, or raises
    [uWSGIConfigError], the process is as it was. *)
Theorem untouched_unless_master (worker_callback atexit_ : option callable) (e : env) :
  (check_uwsgi worker_callback atexit_ e).1 ≠ uWSGIMasterProcess →
  (check_uwsgi worker_callback atexit_ e).2 = e.
Proof.
  unfold check_uwsgi. destruct (uwsgi_module e) as [u|]; [|done].
  destruct (negb (opt_get u "enable-threads")); [done|].
  destruct ((1 <? numproc u) && negb (opt_get u "lazy-apps") && (worker_id u =? 0)); [|done].
  destruct (negb (opt_get u "master")); [done|].
  by destruct worker_callback as [f|], (uwsgidecorators e).
Qed.

(** What raising [uWSGIMasterProcess] leaves behind: the worker callback, if
    given, handed to [postfork] once, after those already there; [atexit],
    if given, wrapped in [_atexit] around the hook that was there and put in
    its place; options, process count and worker id untouched. *)
Theorem master_process_effects (worker_callback atexit_ : option callable) (e : env) (u : uwsgi) :
  uwsgi_module e = Some u →
  (check_uwsgi worker_callback atexit_ e).1 = uWSGIMasterProcess →
  postfork (check_uwsgi worker_callback atexit_ e).2
    = postfork e ++ match worker_callback with Some f => [f] | None => [] end
  ∧ uwsgidecorators (check_uwsgi worker_callback atexit_ e).2 = uwsgidecorators e
  ∧ ∃ u',
      uwsgi_module (check_uwsgi worker_callback atexit_ e).2 = Some u'
      ∧ opt u' = opt u ∧ numproc u' = numproc u ∧ worker_id u' = worker_id u
      ∧ atexit u' = match atexit_ with
                    | Some f => Some (_atexit f (atexit u))
                    | None => atexit u
                    end.
Proof.
  intros Hu. unfold check_uwsgi. rewrite Hu.
  destruct (negb (opt_get u "enable-threads")); [done|].
  destruct ((1 <? numproc u) && negb (opt_get u "lazy-apps") && (worker_id u =? 0)); [|done].
  destruct (negb (opt_get u "master")); [done|].
  destruct worker_callback as [f|], (uwsgidecorators e); try done; intros _; cbn;
    (split; [by rewrite ?app_nil_r|]); (split; [done|]);
    destruct atexit_ as [g|]; by eexists.
Qed.

Lemma _atexit_runs (f : callable) (original : option callable) (w : world) :
  _atexit f original w
  = match (f w).1 with
    | inl e =>
        if is_Exception e
        then match original with Some g => g (f w).2 | None => (inr (), (f w).2) end
        else (inl e, (f w).2)
    | inr _ => match original with Some g => g (f w).2 | None => (inr (), (f w).2) end
    end.
Proof. unfold _atexit. by destruct (f w) as [[e|[]] w']. Qed.

(** When [check_uwsgi] raises [uWSGIMasterProcess] and was given an
    [atexit], [uwsgi.atexit] is afterwards a hook that runs the caller's
    [atexit] first and the hook it replaced next, on the world the first one
    left.  An [Exception] raised by the caller's [atexit] is dropped and the
    replaced hook still runs; any other exception ends the hook at once,
    before the replaced hook. *)
Theorem installed_atexit_runs_both (worker_callback : option callable) (f : callable)
    (e : env) (u : uwsgi) :
  uwsgi_module e = Some u →
  (check_uwsgi worker_callback (Some f) e).1 = uWSGIMasterProcess →
  ∃ u' hook,
    uwsgi_module (check_uwsgi worker_callback (Some f) e).2 = Some u'
    ∧ atexit u' = Some hook
    ∧ ∀ w,
        let replaced :=
          match atexit u with
          | Some g => g (f w).2
          | None => (inr (), (f w).2)
          end in
        ((f w).1 = inr () → hook w = replaced)
        ∧ (∀ x, (f w).1 = inl x → is_Exception x = true → hook w = replaced)
        ∧ (∀ x, (f w).1 = inl x → is_Exception x = false → hook w = (inl x, (f w).2)).
Proof.
  intros Hu. unfold check_uwsgi. rewrite Hu.
  destruct (negb (opt_get u "enable-threads")); [done|].
  destruct ((1 <? numproc u) && negb (opt_get u "lazy-apps") && (worker_id u =? 0)); [|done].
  destruct (negb (opt_get u "master")); [done|].
  assert (∀ w,
    let replaced :=
      match atexit u with Some g => g (f w).2 | None => (inr (), (f w).2) end in
    ((f w).1 = inr () → _atexit f (atexit u) w = replaced)
    ∧ (∀ x, (f w).1 = inl x → is_Exception x = true → _atexit f (atexit u) w = replaced)
    ∧ (∀ x, (f w).1 = inl x → is_Exception x = false
            → _atexit f (atexit u) w = (inl x, (f w).2))) as Hhook.
  { intros w replaced. rewrite _atexit_runs. repeat split.
    - by intros ->.
    - by intros x -> ->.
    - by intros x -> ->. }
  destruct worker_callback as [g|], (uwsgidecorators e); try done; intros _;
    by eexists _, (_atexit f (atexit u)).
Qed.

End Facts.

(** In the master, with a worker callback and an [atexit]: the callback is
    registered, and the installed hook logs ["mine"] then ["original"]. *)
Lemma master_process_effects_witness :
  (uwsgi_module master
     = Some {| opt := {["enable-threads" := true; "master" := true]};
               numproc := 2; worker_id := 0; atexit := Some (log "original") |}
   ∧ (check_uwsgi (Some (log "worker")) (Some (log "mine")) master).1 = uWSGIMasterProcess)
  ∧ postfork (check_uwsgi (Some (log "worker")) (Some (log "mine")) master).2
    = [log "worker"]
  ∧ ∃ (u' : uwsgi (p := logging)) (hook : callable (p := logging)),
      uwsgi_module (check_uwsgi (Some (log "worker")) (Some (log "mine")) master).2 = Some u'
      ∧ atexit u' = Some hook
      ∧ hook ([] : list string) = (inr (), ["mine"; "original"]).
Proof.
  split; [done|].
  destruct (master_process_effects (p := logging) (Some (log "worker")) (Some (log "mine"))
              master _ eq_refl eq_refl) as (Hpost & _ & u' & Hu' & _ & _ & _ & Hexit).
  split; [exact Hpost|].
  exists u', (_atexit (log "mine") (Some (log "original"))).
  split; [exact Hu'|]. split; [exact Hexit|done].
Defined.

(** In the master, with an [atexit] that raises: the installed hook still
    runs the replaced one. *)
Lemma installed_atexit_runs_both_witness :
  (uwsgi_module master
     = Some {| opt := {["enable-threads" := true; "master" := true]};
               numproc := 2; worker_id := 0; atexit := Some (log "original") |}
   ∧ (check_uwsgi None (Some (fail "mine")) master).1 = uWSGIMasterProcess)
  ∧ ∃ (u' : uwsgi (p := logging)) (hook : callable (p := logging)),
      uwsgi_module (check_uwsgi None (Some (fail "mine")) master).2 = Some u'
      ∧ atexit u' = Some hook
      ∧ hook ([] : list string) = (inr (), ["mine"; "original"]).
Proof.
  split; [done|].
  destruct (installed_atexit_runs_both (p := logging) None (fail "mine") master _
              eq_refl eq_refl) as (u' & hook & Hu' & Hhook & Hrun).
  exists u', hook. split; [exact Hu'|]. split; [exact Hhook|].
  exact (proj1 (proj2 (Hrun [])) "mine" eq_refl eq_refl).
Defined.

(** In a worker, [check_uwsgi] returns and touches nothing. *)
Lemma untouched_unless_master_witness :
  (check_uwsgi (Some (log "worker")) (Some (log "mine")) worker).1 ≠ uWSGIMasterProcess
  ∧ check_uwsgi (Some (log "worker")) (Some (log "mine")) worker = (Returns, worker).
Proof.
  assert ((check_uwsgi (p := logging) (Some (log "worker")) (Some (log "mine")) worker).1
          ≠ uWSGIMasterProcess) as Hne by done.
  split; [exact Hne|].
  pose proof (untouched_unless_master (p := logging) _ _ _ Hne) as Hsame.
  by rewrite <- Hsame at 2.
Defined.

End UwsgiFacts.
